(** * Notion database reader: record decoding, pagination, table assembly

    A shallow embedding of [Notion/NotionPage.py] and [Notion/NotionAPI.py].
    Python values coming out of [json.loads] are modelled by the type [json];
    Python exceptions by the type [pyerr]; a function that may raise returns
    a [result].  Python [str] is modelled by [string] (slicing, [find] and
    [startswith] only look at positions and equality of characters).
    JSON numbers are the integer literals (Python [int]); fractional
    literals, which Python reads as floats, are outside the model. *)

From Stdlib Require Import ZArith Ascii String.
From stdpp Require Import base option list gmap strings.

Set Warnings "-register-all,-clear-no-such-hyp".
Local Open Scope string_scope.
Local Open Scope Z_scope.

(** ** Python values *)

Inductive json : Type :=
  | JNull
  | JBool (b : bool)
  | JNum (z : Z)
  | JStr (s : string)
  | JArr (items : list json)
  | JObj (fields : list (string * json)).
(** [JObj] keeps the insertion order of a Python [dict]. *)

Inductive pyerr : Type :=
  | KeyError
  | IndexError
  | TypeError
  | AttributeError
  | ValueError
  | UnboundLocalError
  | SystemExit.

Inductive result (A : Type) : Type :=
  | Ok (a : A)
  | Err (e : pyerr).
Arguments Ok {A} a.
Arguments Err {A} e.

Definition bind {A B : Type} (m : result A) (k : A -> result B) : result B :=
  match m with
  | Ok a => k a
  | Err e => Err e
  end.

Declare Scope py_scope.
Delimit Scope py_scope with py.
Notation "'do' x <- m ; k" := (bind m (fun x => k))
  (at level 10, x name, m at level 100, k at level 200) : py_scope.
Local Open Scope py_scope.

Definition is_ok {A : Type} (m : result A) : bool :=
  match m with Ok _ => true | Err _ => false end.

(** The truth value Python gives a value in [if not v]. *)
Definition py_truthy (v : json) : bool :=
  match v with
  | JNull => false
  | JBool b => b
  | JNum z => negb (z =? 0)
  | JStr s => negb (String.eqb s "")
  | JArr l => match l with [] => false | _ => true end
  | JObj l => match l with [] => false | _ => true end
  end.

(** [len(v)]: defined on [str], [list] and [dict]. *)
Definition py_len (v : json) : result Z :=
  match v with
  | JStr s => Ok (Z.of_nat (String.length s))
  | JArr l => Ok (Z.of_nat (List.length l))
  | JObj l => Ok (Z.of_nat (List.length l))
  | _ => Err TypeError
  end.

Fixpoint assoc (k : string) (l : list (string * json)) : option json :=
  match l with
  | [] => None
  | (k', v) :: l' => if String.eqb k k' then Some v else assoc k l'
  end.

Definition dict_keys (l : list (string * json)) : list string := map fst l.

(** [d[key]] on a [dict] whose keys are strings. *)
Definition dict_get (l : list (string * json)) (key : json) : result json :=
  match key with
  | JStr k => match assoc k l with Some v => Ok v | None => Err KeyError end
  | JNull | JBool _ | JNum _ => Err KeyError
  | JArr _ | JObj _ => Err TypeError
  end.

(** [v[k]] for a string literal [k]: only a [dict] can be indexed by it. *)
Definition py_getitem_str (v : json) (k : string) : result json :=
  match v with
  | JObj l => dict_get l (JStr k)
  | _ => Err TypeError
  end.

(** [v[key]] for a computed [key]; both places that do this in the source
    have already indexed [v] by a string literal, so [v] is a [dict]. *)
Definition py_getitem (v : json) (key : json) : result json :=
  match v with
  | JObj l => dict_get l key
  | _ => Err TypeError
  end.

(** [v[0]]. *)
Definition py_getitem_0 (v : json) : result json :=
  match v with
  | JArr l => match l with x :: _ => Ok x | [] => Err IndexError end
  | JStr s =>
      match s with
      | String c _ => Ok (JStr (String c EmptyString))
      | EmptyString => Err IndexError
      end
  | JObj _ => Err KeyError
  | _ => Err TypeError
  end.

Fixpoint chars (s : string) : list json :=
  match s with
  | EmptyString => []
  | String c s' => JStr (String c EmptyString) :: chars s'
  end.

(** The items a [for] loop sees. *)
Definition py_iter (v : json) : result (list json) :=
  match v with
  | JArr l => Ok l
  | JStr s => Ok (chars s)
  | JObj l => Ok (map (fun kv => JStr (fst kv)) l)
  | _ => Err TypeError
  end.

Fixpoint mapM {A B : Type} (f : A -> result B) (l : list A) : result (list B) :=
  match l with
  | [] => Ok []
  | x :: l' => do y <- f x; do ys <- mapM f l'; Ok (y :: ys)
  end.

(** ** NotionPage.py *)

(** *** NotionRichTextObject *)

Record NotionRichTextObject : Type := {
  plain_text : json;
  href : json;
  annotations : json;
  rto_type : json
}.

Definition NotionRichTextObject_init (rich_text_object : json)
  : result NotionRichTextObject :=
  do pt <- py_getitem_str rich_text_object "plain_text";
  do h <- py_getitem_str rich_text_object "href";
  do a <- py_getitem_str rich_text_object "annotations";
  do t <- py_getitem_str rich_text_object "type";
  Ok {| plain_text := pt; href := h; annotations := a; rto_type := t |}.

Definition get_plain_text (r : NotionRichTextObject) : json := plain_text r.

(** *** NotionPageProperty *)

Record NotionPageProperty : Type := {
  prop_id : json;
  prop_type : json;
  prop_value : json
}.

Definition NotionPageProperty_init (page_property : json)
  : result NotionPageProperty :=
  do i <- py_getitem_str page_property "id";
  do t <- py_getitem_str page_property "type";
  do v <- py_getitem page_property t;
  Ok {| prop_id := i; prop_type := t; prop_value := v |}.

Section Getters.
Variable self : NotionPageProperty.

Definition _get_files_value : result json :=
  do first <- py_getitem_0 (prop_value self);
  py_getitem_str first "name".

Definition _get_select_value : result json :=
  py_getitem_str (prop_value self) "name".

Definition _get_rollup_value : result json :=
  do property_type <- py_getitem_str (prop_value self) "type";
  py_getitem (prop_value self) property_type.

Definition _get_number_value : result json := Ok (prop_value self).

Definition _get_checkbox_value : result json := Ok (prop_value self).

Definition _get_string_value : result json := Ok (prop_value self).

Definition _get_multi_select_value : result json :=
  do items <- py_iter (prop_value self);
  do names <- mapM (fun selection => py_getitem_str selection "name") items;
  Ok (JArr names).

Definition _get_relation_value : result json :=
  do items <- py_iter (prop_value self);
  do ids <- mapM (fun relation => py_getitem_str relation "id") items;
  Ok (JArr ids).

Definition _get_rich_text_value : result json :=
  do first <- py_getitem_0 (prop_value self);
  do rich_text_object <- NotionRichTextObject_init first;
  Ok (get_plain_text rich_text_object).

Definition _get_title_value : result json :=
  do first <- py_getitem_0 (prop_value self);
  do rich_text_object <- NotionRichTextObject_init first;
  Ok (get_plain_text rich_text_object).

(** The dictionary [type_to_function], in the order it is written. *)
Definition type_to_function : list (string * result json) :=
  [ ("title", _get_title_value);
    ("rich_text", _get_rich_text_value);
    ("relation", _get_relation_value);
    ("multi_select", _get_multi_select_value);
    ("phone_number", _get_string_value);
    ("rollup", _get_rollup_value);
    ("url", _get_string_value);
    ("date", _get_string_value);
    ("select", _get_select_value);
    ("email", _get_string_value);
    ("files", _get_files_value);
    ("number", _get_number_value) ].

Fixpoint lookup_function (k : string) (tbl : list (string * result json))
  : option (result json) :=
  match tbl with
  | [] => None
  | (k', f) :: tbl' => if String.eqb k k' then Some f else lookup_function k tbl'
  end.

(** [type_to_function[self.type]()]: the type is a key read from a JSON
    object; a key that is not a string is in no entry of the table. *)
Definition dispatch : result json :=
  match prop_type self with
  | JStr t =>
      match lookup_function t type_to_function with
      | Some f => f
      | None => Err KeyError
      end
  | JNull | JBool _ | JNum _ => Err KeyError
  | JArr _ | JObj _ => Err TypeError
  end.

Definition type_is (t : string) : bool :=
  match prop_type self with
  | JStr t' => String.eqb t' t
  | _ => false
  end.

(** [get_value]; Python's [None] is [JNull]. *)
Definition get_value : result json :=
  if type_is "checkbox" then _get_checkbox_value
  else if negb (py_truthy (prop_value self)) then Ok JNull
  else
    do empty <-
      (if negb (type_is "number")
       then do n <- py_len (prop_value self); Ok (n =? 0)
       else Ok false);
    if (empty : bool) then Ok JNull else dispatch.
End Getters.

(** *** NotionPage *)

Record NotionPage : Type := {
  page_object : json;
  page_id : json;
  created_time : json;
  last_edited_time : json;
  cover : json;
  icon : json;
  parent : json;
  archived : json;
  properties : json;
  url : json
}.

Definition NotionPage_init (j : json) : result NotionPage :=
  do o <- py_getitem_str j "object";
  do i <- py_getitem_str j "id";
  do c <- py_getitem_str j "created_time";
  do l <- py_getitem_str j "last_edited_time";
  do cv <- py_getitem_str j "cover";
  do ic <- py_getitem_str j "icon";
  do pa <- py_getitem_str j "parent";
  do ar <- py_getitem_str j "archived";
  do pr <- py_getitem_str j "properties";
  do u <- py_getitem_str j "url";
  Ok {| page_object := o; page_id := i; created_time := c;
        last_edited_time := l; cover := cv; icon := ic; parent := pa;
        archived := ar; properties := pr; url := u |}.

(** [self.properties.keys()]: only a [dict] has [keys]. *)
Definition get_properties_keys (self : NotionPage) : result (list string) :=
  match properties self with
  | JObj l => Ok (dict_keys l)
  | _ => Err AttributeError
  end.

Definition get_properties (self : NotionPage) : json := properties self.

Definition get_property (self : NotionPage) (key : string)
  : result NotionPageProperty :=
  do page_property <- py_getitem_str (properties self) key;
  NotionPageProperty_init page_property.

Definition get_property_value (self : NotionPage) (key : string) : result json :=
  do page_property <- get_property self key;
  get_value page_property.

(** ** NotionAPI.py: identifiers *)

Fixpoint str_take (n : nat) (s : string) : string :=
  match n, s with
  | S n', String c s' => String c (str_take n' s')
  | _, _ => EmptyString
  end.

Fixpoint str_drop (n : nat) (s : string) : string :=
  match n, s with
  | S n', String _ s' => str_drop n' s'
  | _, _ => s
  end.

(** A slice bound as Python reads it: counted from the end when negative,
    then clamped to the string. *)
Definition slice_bound (len i : Z) : Z :=
  if i <? 0 then Z.max 0 (i + len) else Z.min i len.

(** [s[lo:hi]]. *)
Definition py_slice (s : string) (lo hi : Z) : string :=
  let n := Z.of_nat (String.length s) in
  let lo' := slice_bound n lo in
  let hi' := slice_bound n hi in
  str_take (Z.to_nat (hi' - lo')) (str_drop (Z.to_nat lo') s).

(** [s[lo:]]. *)
Definition py_slice_from (s : string) (lo : Z) : string :=
  py_slice s lo (Z.of_nat (String.length s)).

Fixpoint find_from (sub s : string) (i : Z) : Z :=
  if String.prefix sub s then i
  else match s with
       | EmptyString => -1
       | String _ s' => find_from sub s' (i + 1)
       end.

(** [s.find(sub)]: the lowest index where [sub] starts, or [-1]. *)
Definition py_find (s sub : string) : Z := find_from sub s 0.

(** [s.startswith(p)]. *)
Definition py_startswith (s p : string) : bool := String.prefix p s.

Definition _format_page_id (raw_id : string) : string :=
  let result := py_slice raw_id 0 8 +:+ "-" in
  let result := result +:+ (py_slice raw_id 8 12 +:+ "-") in
  let result := result +:+ (py_slice raw_id 12 16 +:+ "-") in
  let result := result +:+ (py_slice raw_id 16 20 +:+ "-") in
  let result := result +:+ py_slice_from raw_id 20 in
  result.

Definition _get_base_url : string := "https://api.notion.com/v1/".

Definition _extract_dbid_from_http_url (http_url : string) : string :=
  let view_position_index := py_find http_url "?v=" in
  let initial_pos := view_position_index - 32 in
  let db_id := py_slice http_url initial_pos view_position_index in
  db_id.

(** *** Vocabulary of the identifier claims *)

Definition is_dash (c : ascii) : bool := Ascii.eqb c "-".

Definition is_hex_digit (c : ascii) : bool :=
  let n := nat_of_ascii c in
  ((48 <=? n) && (n <=? 57) || (97 <=? n) && (n <=? 102)
   || (65 <=? n) && (n <=? 70))%nat.

Fixpoint str_forall (p : ascii -> bool) (s : string) : bool :=
  match s with
  | EmptyString => true
  | String c s' => p c && str_forall p s'
  end.

Definition no_dash (s : string) : bool := str_forall (fun c => negb (is_dash c)) s.

Fixpoint remove_dashes (s : string) : string :=
  match s with
  | EmptyString => EmptyString
  | String c s' => if is_dash c then remove_dashes s' else String c (remove_dashes s')
  end.

(** The positions of the dashes of [s], counted from [i]. *)
Fixpoint dash_positions_from (i : nat) (s : string) : list nat :=
  match s with
  | EmptyString => []
  | String c s' =>
      if is_dash c then i :: dash_positions_from (S i) s'
      else dash_positions_from (S i) s'
  end.

Definition dash_positions (s : string) : list nat := dash_positions_from 0 s.

(** A raw identifier: 32 hexadecimal digits. *)
Definition valid_raw_id (s : string) : bool :=
  (String.length s =? 32)%nat && str_forall is_hex_digit s.

(** A canonical identifier: 36 characters, dashes exactly at 8, 13, 18 and
    23, hexadecimal digits elsewhere (the 8-4-4-4-12 form). *)
Definition is_canonical_id (s : string) : bool :=
  (String.length s =? 36)%nat
  && bool_decide (dash_positions s = [8; 13; 18; 23]%nat)
  && str_forall is_hex_digit (remove_dashes s).

(** [sub] starts at position [i] of [s]. *)
Definition occurs_at (sub s : string) (i : nat) : bool :=
  String.prefix sub (str_drop i s).

(** [sub] starts at none of the positions [0 .. n-1] of [s]. *)
Definition no_occurrence_before (sub s : string) (n : nat) : bool :=
  forallb (fun i => negb (occurs_at sub s i)) (seq 0 n).

(** ** NotionAPI.py: the table *)

(** A pandas [DataFrame] as [pages_to_dataframe] uses it: the column labels
    and the row labels in their order, and the cells that were assigned.
    A cell that was never assigned is missing (pandas shows [NaN]). *)
Record DataFrame : Type := {
  df_columns : list string;
  df_index : list nat;
  df_cells : gmap (nat * string) json
}.

(** [pd.DataFrame(columns=columns)]. *)
Definition DataFrame_new (columns : list string) : DataFrame :=
  {| df_columns := columns; df_index := []; df_cells := ∅ |}.

Definition add_label {A : Type} `{EqDecision A} (x : A) (l : list A) : list A :=
  if bool_decide (x ∈ l) then l else (l ++ [x])%list.

Section Table.
(** What pandas leaves in a cell for an assigned value.  It keeps a
    string, a number or a boolean as it is; what it does with a list or
    a dict (keep, unwrap or raise) is left open here. *)
Variable cell_store : json -> result json.

(** [df.at[x, key] = value]: a label that the frame does not have yet is
    added at the end of its axis (pandas' setting with enlargement). *)
Definition df_at_set (df : DataFrame) (x : nat) (key : string) (value : json)
  : result DataFrame :=
  do stored <- cell_store value;
  Ok {| df_columns := add_label key (df_columns df);
        df_index := add_label x (df_index df);
        df_cells := <[(x, key) := stored]> (df_cells df) |}.

(** The inner loop [for key in property_keys]. *)
Fixpoint fill_row (page : NotionPage) (x : nat) (property_keys : list string)
  (df : DataFrame) : result DataFrame :=
  match property_keys with
  | [] => Ok df
  | key :: keys' =>
      do value <- get_property_value page key;
      do df' <- df_at_set df x key value;
      fill_row page x keys' df'
  end.

(** The outer loop [for x, page in enumerate(notion_pages)], from row [x]. *)
Fixpoint fill_rows (x : nat) (notion_pages : list NotionPage) (df : DataFrame)
  : result DataFrame :=
  match notion_pages with
  | [] => Ok df
  | page :: pages' =>
      do property_keys <- get_properties_keys page;
      do df' <- fill_row page x property_keys df;
      fill_rows (S x) pages' df'
  end.

Definition pages_to_dataframe (notion_pages : list NotionPage) : result DataFrame :=
  match notion_pages with
  | [] => Err IndexError
  | first :: _ =>
      do columns <- get_properties_keys first;
      let df := DataFrame_new columns in
      fill_rows 0 notion_pages df
  end.
End Table.

(** ** NotionAPI.py: querying *)

Record NotionAPI : Type := { NOTION_API_KEY : string }.

Definition _build_headers (self : NotionAPI) : list (string * string) :=
  [ ("Notion-Version", "2021-08-16");
    ("Authorization", "Bearer " +:+ NOTION_API_KEY self) ].

(** One POST as [requests.post] receives it. *)
Record request : Type := {
  req_url : string;
  req_headers : list (string * string);
  req_data : option string;
  req_json : option json
}.

(** A response as the code reads it: the status code and the content,
    already read by [json.loads]. *)
Record Response : Type := {
  status_code : Z;
  content : json
}.

(** [response.raise_for_status()] raises for the statuses 400 to 599. *)
Definition http_error (status : Z) : bool := (400 <=? status) && (status <? 600).

(** The remote service for POST requests: the responses it will give and
    the requests it has received.  When it has no response left, none
    arrives: [requests.post] itself raises. *)
Record service : Type := {
  pending : list Response;
  sent : list request
}.

(** [post_request].  A response with a status that [raise_for_status]
    refuses is logged and turned into [SystemExit].  When [requests.post]
    itself raised, the handler's log line reads [response.status_code] with
    [response] unbound, so [UnboundLocalError] is raised there and
    [raise SystemExit] is not reached. *)
Definition post_request (srv : service) (request_url : string)
  (headers : list (string * string)) (data : option string)
  (json_arg : option json) : result (Response * service) :=
  let rq := {| req_url := request_url; req_headers := headers;
               req_data := data; req_json := json_arg |} in
  match pending srv with
  | [] => Err UnboundLocalError
  | response :: later =>
      if http_error (status_code response) then Err SystemExit
      else Ok (response, {| pending := later; sent := (sent srv ++ [rq])%list |})
  end.

Definition b2z (b : bool) : Z := if b then 1 else 0.

(** [a += b]. *)
Definition py_iadd (a b : json) : result json :=
  match a with
  | JArr l => do items <- py_iter b; Ok (JArr (l ++ items)%list)
  | JStr s => match b with JStr t => Ok (JStr (s +:+ t)) | _ => Err TypeError end
  | JNum x =>
      match b with
      | JNum y => Ok (JNum (x + y))
      | JBool y => Ok (JNum (x + b2z y))
      | _ => Err TypeError
      end
  | JBool x =>
      match b with
      | JNum y => Ok (JNum (b2z x + y))
      | JBool y => Ok (JNum (b2z x + b2z y))
      | _ => Err TypeError
      end
  | JNull | JObj _ => Err TypeError
  end.

(** What [query_db] hands back; [RNone] is Python's [None]. *)
Inductive query_result : Type :=
  | RJson (json_results : json)
  | RDataFrame (df : DataFrame)
  | RPages (notion_pages : list NotionPage)
  | RNone.

Definition query_url (db : string) : string :=
  "https://api.notion.com/v1/databases/" +:+ db +:+ "/query".

Section Query.
Variable cell_store : json -> result json.
Variable self : NotionAPI.

(** The loop [while json_content["has_more"]]; each round takes one
    response of the service, so the responses left bound the rounds.  The
    [match] is the [post_request] of the round ([query_loop_round]). *)
Fixpoint query_loop (db : string) (json_content json_results : json)
  (later : list Response) (log : list request) : result (json * service) :=
  do has_more <- py_getitem_str json_content "has_more";
  if py_truthy has_more then
    do next_cursor <- py_getitem_str json_content "next_cursor";
    let data := JObj [("start_cursor", next_cursor)] in
    match later with
    | [] => Err UnboundLocalError
    | response :: later' =>
        let log' := (log ++ [ {| req_url := query_url db;
                                 req_headers := _build_headers self;
                                 req_data := None;
                                 req_json := Some data |} ])%list in
        if http_error (status_code response) then Err SystemExit
        else
          let json_content := content response in
          do more <- py_getitem_str json_content "results";
          do json_results' <- py_iadd json_results more;
          query_loop db json_content json_results' later' log'
    end
  else Ok (json_results, {| pending := later; sent := log |}).

(** [query_db] from the first request to the end of the loop: what has
    been fetched, and the service afterwards. *)
Definition query_fetch (srv : service) (db query : string)
  : result (json * service) :=
  let headers := _build_headers self in
  let data := query in
  do r <- post_request srv (query_url db) headers (Some data) None;
  let json_content := content (fst r) in
  let srv := snd r in
  do json_results <- py_getitem_str json_content "results";
  query_loop db json_content json_results (pending srv) (sent srv).

Definition query_db (srv : service) (db query return_type : string)
  : result (query_result * service) :=
  let db := if py_startswith db "https"
            then _extract_dbid_from_http_url db else db in
  do r <- query_fetch srv db query;
  let json_results := fst r in
  let srv := snd r in
  do items <- py_iter json_results;
  do notion_pages <- mapM NotionPage_init items;
  if String.eqb return_type "json" then Ok (RJson json_results, srv)
  else if String.eqb return_type "dataframe" then
    do df <- pages_to_dataframe cell_store notion_pages;
    Ok (RDataFrame df, srv)
  else if String.eqb return_type "NotionPage" then Ok (RPages notion_pages, srv)
  else Ok (RNone, srv).
End Query.

(** *** Vocabulary of the decoding and query claims *)

(** The type tags the decoder knows. *)
Definition recognized_tags : list string :=
  [ "title"; "rich_text"; "relation"; "multi_select"; "phone_number";
    "rollup"; "url"; "date"; "select"; "email"; "files"; "number";
    "checkbox" ].

Definition recognized (t : json) : bool :=
  match t with
  | JStr s => existsb (String.eqb s) recognized_tags
  | _ => false
  end.

(** Null or an empty sequence. *)
Definition null_or_empty (v : json) : bool :=
  match v with
  | JNull => true
  | JStr s => String.eqb s ""
  | JArr l => match l with [] => true | _ => false end
  | _ => false
  end.

(** A response of the query endpoint. *)
Definition response (results : list json) (has_more : bool) (next_cursor : json)
  : json :=
  JObj [ ("object", JStr "list"); ("results", JArr results);
         ("next_cursor", next_cursor); ("has_more", JBool has_more) ].

(** A response that announces more pages, from its results and cursor. *)
Definition more_page (p : list json * json) : json := response (fst p) true (snd p).

(** A response that arrives with status 200 and the given content. *)
Definition answered (json_content : json) : Response :=
  {| status_code := 200; content := json_content |}.

(** The database identifier [query_db] uses for [db]. *)
Definition db_id (db : string) : string :=
  if py_startswith db "https" then _extract_dbid_from_http_url db else db.

(** The first request of a query and a follow-up with a cursor. *)
Definition first_request (self : NotionAPI) (db query : string) : request :=
  {| req_url := query_url db; req_headers := _build_headers self;
     req_data := Some query; req_json := None |}.

Definition follow_up (self : NotionAPI) (db : string) (cursor : json) : request :=
  {| req_url := query_url db; req_headers := _build_headers self;
     req_data := None; req_json := Some (JObj [("start_cursor", cursor)]) |}.

(** *** Vocabulary of the table claims *)

(** The property names of a record, in the order of its [dict]. *)
Definition page_keys (page : NotionPage) : list string :=
  match properties page with
  | JObj l => dict_keys l
  | _ => []
  end.

(** The positions, counted from [x], of the records that have at least one
    property, in increasing order. *)
Fixpoint rows_from (x : nat) (notion_pages : list NotionPage) : list nat :=
  match notion_pages with
  | [] => []
  | page :: pages' =>
      match page_keys page with
      | [] => rows_from (S x) pages'
      | _ :: _ => x :: rows_from (S x) pages'
      end
  end.

(** Every property of the record decodes and the table takes its value. *)
Definition property_decodes (cell_store : json -> result json)
  (page : NotionPage) (key : string) : bool :=
  match get_property_value page key with
  | Ok v => is_ok (cell_store v)
  | Err _ => false
  end.

Definition page_decodes (cell_store : json -> result json) (page : NotionPage)
  : bool :=
  match get_properties_keys page with
  | Ok ks => forallb (property_decodes cell_store page) ks
  | Err _ => false
  end.

(** The cell holds what the table keeps of the decoded value of the
    property. *)
Definition populated (cell_store : json -> result json) (page : NotionPage)
  (key : string) (cell : option json) : Prop :=
  exists v w, get_property_value page key = Ok v
              /\ cell_store v = Ok w /\ cell = Some w.

(** A record with the given properties; the other attributes are not read
    by the table assembler. *)
Definition page_with (props : list (string * json)) : NotionPage :=
  {| page_object := JStr "page"; page_id := JStr "p"; created_time := JNull;
     last_edited_time := JNull; cover := JNull; icon := JNull; parent := JNull;
     archived := JBool false; properties := JObj props; url := JNull |}.

Definition title_payload (text : string) : json :=
  JObj [ ("id", JStr "title"); ("type", JStr "title");
         ("title", JArr [ JObj [ ("plain_text", JStr text); ("href", JNull);
                                 ("annotations", JObj []); ("type", JStr "text") ] ]) ].

Definition select_payload (name : string) : json :=
  JObj [ ("id", JStr "sel"); ("type", JStr "select");
         ("select", JObj [ ("name", JStr name) ]) ].

(** A table that keeps every assigned value as it is. *)
Definition keep_value (v : json) : result json := Ok v.

(** ** NotionAPI.py: the GET side *)

(** The service for GET requests: the responses it will give and the
    requests (URL and headers) it has received.  As for [post_request],
    when it has no response left none arrives. *)
Record http : Type := {
  replies : list Response;
  requested : list (string * list (string * string))
}.

(** A call that may raise and that talks to the service: the state of the
    service is known also when the call raises. *)
Definition api (A : Type) : Type := http -> result A * http.

Definition api_ret {A : Type} (a : A) : api A := fun net => (Ok a, net).

Definition api_raise {A : Type} (e : pyerr) : api A := fun net => (Err e, net).

Definition api_bind {A B : Type} (m : api A) (k : A -> api B) : api B :=
  fun net =>
    match m net with
    | (Ok a, net') => k a net'
    | (Err e, net') => (Err e, net')
    end.

Definition api_lift {A : Type} (r : result A) : api A := fun net => (r, net).

Notation "'run' x <- m ; k" := (api_bind m (fun x => k))
  (at level 10, x name, m at level 100, k at level 200) : py_scope.

(** [get_request]; its handler is the one of [post_request], with the same
    [UnboundLocalError] when no response arrived. *)
Definition get_request (request_url : string) (headers : list (string * string))
  : api Response :=
  fun net =>
    let log := (requested net ++ [(request_url, headers)])%list in
    match replies net with
    | [] => (Err UnboundLocalError, {| replies := []; requested := log |})
    | response :: later =>
        let net' := {| replies := later; requested := log |} in
        if http_error (status_code response) then (Err SystemExit, net')
        else (Ok response, net')
    end.

Section Api.
Variable self : NotionAPI.

Definition _check_connection : api Response :=
  let headers := _build_headers self in
  get_request "https://api.notion.com/v1/users" headers.

Definition get_db (db_id : string) : api Response :=
  let base_request := _get_base_url +:+ "databases" in
  let db_id := _format_page_id db_id in
  let request_url := base_request +:+ "/" +:+ db_id in
  let headers := _build_headers self in
  get_request request_url headers.

Definition get_page (page_id : string) : api NotionPage :=
  let base_request := _get_base_url +:+ "pages" in
  let page_id := _format_page_id page_id in
  let request_url := base_request +:+ "/" +:+ page_id in
  let headers := _build_headers self in
  run response <- get_request request_url headers;
  if negb (status_code response =? 200) then api_raise ValueError
  else api_lift (NotionPage_init (content response)).

Definition get_db_title (db : string) : api json :=
  let db := if py_startswith db "https"
            then _extract_dbid_from_http_url db else db in
  run db <- get_db db;
  let db_content := content db in
  api_lift (do title <- py_getitem_str db_content "title";
            do first <- py_getitem_0 title;
            py_getitem_str first "plain_text").

(** [v == "..."] for a string literal. *)
Definition py_eq_str (v : json) (s : string) : bool :=
  match v with
  | JStr t => String.eqb t s
  | _ => false
  end.

(** The loop of [get_db_primary_key] over [properties.items()]; falling
    out of the loop returns [None]. *)
Fixpoint first_title (items : list (string * json)) : result json :=
  match items with
  | [] => Ok JNull
  | property :: items' =>
      let contents := snd property in
      do t <- py_getitem_str contents "type";
      if py_eq_str t "title" then py_getitem_str contents "name"
      else first_title items'
  end.

(** [d.items()]: only a [dict] has [items]. *)
Definition py_items (v : json) : result (list (string * json)) :=
  match v with
  | JObj l => Ok l
  | _ => Err AttributeError
  end.

Definition get_db_primary_key (db : string) : api json :=
  let db := if py_startswith db "https"
            then _extract_dbid_from_http_url db else db in
  run db <- get_db db;
  let db_content := content db in
  api_lift (do properties <- py_getitem_str db_content "properties";
            do items <- py_items properties;
            first_title items).
End Api.

(** [NotionAPI(notion_api_key)]: [__init__] and [_add_notion_api_key].  The
    key is a string or [None] (an unset environment variable). *)
Definition NotionAPI_init (notion_api_key : option string) : api NotionAPI :=
  match notion_api_key with
  | None => api_raise SystemExit
  | Some key =>
      if String.eqb key "" then api_raise SystemExit
      else if negb (py_startswith key "secret") then api_raise SystemExit
      else
        let self := {| NOTION_API_KEY := key |} in
        run _ <- _check_connection self;
        api_ret self
  end.

(** *** Vocabulary of the further properties *)

(** The attributes [NotionPage] reads, in the order it reads them. *)
Definition page_fields : list string :=
  [ "object"; "id"; "created_time"; "last_edited_time"; "cover"; "icon";
    "parent"; "archived"; "properties"; "url" ].

(** The attributes [NotionRichTextObject] reads. *)
Definition rich_text_fields : list string :=
  [ "plain_text"; "href"; "annotations"; "type" ].

Definition has_key (l : list (string * json)) (k : string) : bool :=
  match assoc k l with Some _ => true | None => false end.

(** A property payload of the given type around a value. *)
Definition payload (id : json) (type : string) (value : json) : json :=
  JObj [ ("id", id); ("type", JStr type); (type, value) ].

(** The value a JSON object has under a key, if it is an object that has
    the key. *)
Definition field (k : string) (v : json) : option json :=
  match v with
  | JObj l => assoc k l
  | _ => None
  end.

(** A string, list or dict with at least one item. *)
Definition has_items (v : json) : bool :=
  match v with
  | JStr (String _ _) | JArr (_ :: _) | JObj (_ :: _) => true
  | _ => false
  end.

(** A key the constructor accepts: a string that starts with "secret". *)
Definition valid_key (notion_api_key : option string) : bool :=
  match notion_api_key with
  | Some key => py_startswith key "secret"
  | None => false
  end.

(** A database property whose "type" is there and is not "title". *)
Definition not_title (property : string * json) : bool :=
  match field "type" (snd property) with
  | Some t => negb (py_eq_str t "title")
  | None => false
  end.

(** The tags whose value is returned as it is. *)
Definition string_tags : list string := [ "phone_number"; "url"; "date"; "email" ].

(** * Properties *)

(** ** Decoding a property *)

Lemma type_is_recognized self t :
  In t recognized_tags -> type_is self t = true -> recognized (prop_type self) = true.
Proof.
  unfold type_is, recognized. destruct (prop_type self) as [| | |s| |]; try discriminate.
  intros Hin Heq. apply String.eqb_eq in Heq. subst s.
  apply existsb_exists. exists t. split; [exact Hin | apply String.eqb_refl].
Qed.

Lemma lookup_function_recognized self t :
  recognized (JStr t) = false -> lookup_function t (type_to_function self) = None.
Proof.
  unfold recognized, recognized_tags, type_to_function. simpl.
  repeat (destruct (String.eqb t _); [discriminate |]).
  reflexivity.
Qed.

Lemma dispatch_unrecognized self :
  recognized (prop_type self) = false ->
  dispatch self = Err KeyError \/ dispatch self = Err TypeError.
Proof.
  unfold dispatch. intros H.
  destruct (prop_type self) as [| | |t| |]; auto.
  rewrite (lookup_function_recognized self t H). auto.
Qed.

Lemma falsy_is_absent self :
  type_is self "checkbox" = false ->
  py_truthy (prop_value self) = false ->
  get_value self = Ok JNull.
Proof.
  intros Hc Hv. unfold get_value. rewrite Hc, Hv. reflexivity.
Qed.

Lemma null_or_empty_falsy v : null_or_empty v = true -> py_truthy v = false.
Proof.
  destruct v as [| | |s|l|]; simpl; try discriminate; try reflexivity.
  - intros ->. reflexivity.
  - destruct l; [reflexivity | discriminate].
Qed.

(** C1, at the input where the code departs from it: a number payload whose
    value is 0 decodes to [None], not to 0, because the emptiness test
    [if not self.value] comes before the dispatch and 0 is falsy. *)
Theorem number_zero_decodes_to_absent :
  let payload := JObj [("id", JStr "n"); ("type", JStr "number"); ("number", JNum 0)] in
  (do p <- NotionPageProperty_init payload; get_value p) = Ok JNull
  /\ (do p <- NotionPageProperty_init payload; get_value p) <> Ok (JNum 0).
Proof. split; [reflexivity | discriminate]. Qed.

(** A number payload with any other integer decodes to that integer. *)
Lemma number_nonzero_decodes_to_itself self z :
  prop_type self = JStr "number" -> prop_value self = JNum z -> z <> 0 ->
  get_value self = Ok (JNum z).
Proof.
  intros Ht Hv Hz. unfold get_value, type_is, dispatch. rewrite Ht, Hv. simpl.
  destruct (Z.eqb_spec z 0); [contradiction |].
  simpl. unfold _get_number_value. rewrite Hv. reflexivity.
Qed.

(** C7 as stated fails: a payload with an unrecognized type tag and a null
    value decodes to [None] without any error. *)
Lemma unrecognized_tag_null_value_decodes :
  let p := {| prop_id := JStr "f"; prop_type := JStr "formula"; prop_value := JNull |} in
  recognized (prop_type p) = false /\ get_value p = Ok JNull
  /\ ~ (exists e, get_value p = Err e).
Proof.
  split; [reflexivity | split; [reflexivity |]].
  intros [e He]. discriminate He.
Qed.

(** C7, amended: a payload whose type tag is not a recognized one and whose
    value is not empty (truthy in Python) fails to decode: with [KeyError]
    from the dispatch table, or with [TypeError] when the value has no
    length or the tag cannot be a key. *)
Theorem unrecognized_tag_nonempty_value_fails self :
  recognized (prop_type self) = false ->
  py_truthy (prop_value self) = true ->
  get_value self = Err KeyError \/ get_value self = Err TypeError.
Proof.
  intros Hr Hv. unfold get_value.
  assert (Hc : type_is self "checkbox" = false).
  { destruct (type_is self "checkbox") eqn:E; [|reflexivity].
    apply type_is_recognized in E; [congruence |].
    unfold recognized_tags. simpl. tauto. }
  assert (Hn : type_is self "number" = false).
  { destruct (type_is self "number") eqn:E; [|reflexivity].
    apply type_is_recognized in E; [congruence |].
    unfold recognized_tags. simpl. tauto. }
  rewrite Hc, Hv, Hn. simpl.
  destruct (prop_value self) as [| | |s|l|l]; simpl in *; auto.
  - destruct s; [discriminate |]. simpl. apply dispatch_unrecognized, Hr.
  - destruct l; [discriminate |]. simpl. apply dispatch_unrecognized, Hr.
  - destruct l; [discriminate |]. simpl. apply dispatch_unrecognized, Hr.
Qed.

Lemma unrecognized_tag_nonempty_value_fails_witness :
  let p := {| prop_id := JStr "f"; prop_type := JStr "formula";
              prop_value := JStr "1 + 1" |} in
  get_value p = Err KeyError \/ get_value p = Err TypeError.
Proof.
  apply unrecognized_tag_nonempty_value_fails; reflexivity.
Defined.

(** C9: a payload whose type tag is not "checkbox" and whose value is null
    or an empty sequence decodes to [None] whatever the tag is: the
    dispatch table is not consulted, so a tag it does not have, for which
    the dispatch itself raises, decodes to [None] as well. *)
Theorem empty_value_decodes_to_absent self :
  type_is self "checkbox" = false ->
  null_or_empty (prop_value self) = true ->
  get_value self = Ok JNull
  /\ (recognized (prop_type self) = false -> is_ok (dispatch self) = false).
Proof.
  intros Hc Hv. split.
  - apply falsy_is_absent; [exact Hc | apply null_or_empty_falsy, Hv].
  - intros Hr. destruct (dispatch_unrecognized self Hr) as [-> | ->]; reflexivity.
Qed.

Lemma empty_value_decodes_to_absent_witness :
  let p := {| prop_id := JStr "f"; prop_type := JStr "formula"; prop_value := JArr [] |} in
  get_value p = Ok JNull
  /\ (recognized (prop_type p) = false -> is_ok (dispatch p) = false).
Proof.
  apply empty_value_decodes_to_absent; reflexivity.
Defined.

(** ** Strings and slices *)

#[local] Arguments String.append !_ _ / : simpl nomatch.

Lemma length_app_str a b :
  String.length (a +:+ b) = (String.length a + String.length b)%nat.
Proof. induction a as [|c a IH]; simpl; [reflexivity | rewrite IH; reflexivity]. Qed.

Lemma app_assoc_str a b c : (a +:+ b) +:+ c = a +:+ (b +:+ c).
Proof. induction a as [|x a IH]; simpl; [reflexivity | rewrite IH; reflexivity]. Qed.

Lemma str_take_length n s :
  String.length (str_take n s) = Nat.min n (String.length s).
Proof.
  revert s. induction n as [|n IH]; intros [|c s]; simpl; try reflexivity.
  rewrite IH. reflexivity.
Qed.

Lemma str_drop_length n s :
  String.length (str_drop n s) = (String.length s - n)%nat.
Proof.
  revert s. induction n as [|n IH]; intros [|c s]; simpl; try reflexivity.
  apply IH.
Qed.

Lemma str_drop_app a b : str_drop (String.length a) (a +:+ b) = b.
Proof. induction a as [|c a IH]; simpl; [destruct b; reflexivity | exact IH]. Qed.

Lemma str_take_app a b : str_take (String.length a) (a +:+ b) = a.
Proof.
  induction a as [|c a IH]; simpl; [destruct b; reflexivity | rewrite IH; reflexivity].
Qed.

Lemma py_slice_length s lo hi :
  0 <= lo <= hi ->
  Z.of_nat (String.length (py_slice s lo hi))
  = Z.min hi (Z.of_nat (String.length s)) - Z.min lo (Z.of_nat (String.length s)).
Proof.
  intros H. unfold py_slice, slice_bound.
  destruct (Z.ltb_spec lo 0); [lia |].
  destruct (Z.ltb_spec hi 0); [lia |].
  rewrite str_take_length, str_drop_length. lia.
Qed.

Lemma format_page_id_length s :
  String.length (_format_page_id s) = (String.length s + 4)%nat.
Proof.
  unfold _format_page_id, py_slice_from.
  rewrite !length_app_str. simpl String.length.
  pose proof (py_slice_length s 0 8 ltac:(lia)).
  pose proof (py_slice_length s 8 12 ltac:(lia)).
  pose proof (py_slice_length s 12 16 ltac:(lia)).
  pose proof (py_slice_length s 16 20 ltac:(lia)).
  destruct (Z.le_gt_cases 20 (Z.of_nat (String.length s))) as [Hge | Hlt].
  - pose proof (py_slice_length s 20 (Z.of_nat (String.length s)) ltac:(lia)). lia.
  - assert (String.length (py_slice s 20 (Z.of_nat (String.length s))) = 0%nat).
    { unfold py_slice, slice_bound.
      destruct (Z.ltb_spec (Z.of_nat (String.length s)) 0); [lia |].
      destruct (Z.ltb_spec 20 0); [lia |].
      rewrite str_take_length. lia. }
    lia.
Qed.

Lemma str_forall_app p a b :
  str_forall p (a +:+ b) = str_forall p a && str_forall p b.
Proof.
  induction a as [|c a IH]; simpl; [reflexivity |].
  rewrite IH. apply andb_assoc.
Qed.

Lemma str_forall_impl (p q : ascii -> bool) s :
  (forall c, p c = true -> q c = true) ->
  str_forall p s = true -> str_forall q s = true.
Proof.
  intros Hpq. induction s as [|c s IH]; simpl; [reflexivity |].
  intros H. apply andb_prop in H as [Hc Hs].
  rewrite (Hpq c Hc), (IH Hs). reflexivity.
Qed.

Lemma hex_digit_not_dash c : is_hex_digit c = true -> negb (is_dash c) = true.
Proof.
  unfold is_dash. destruct (Ascii.eqb_spec c "-") as [-> | _]; [|reflexivity].
  vm_compute. discriminate.
Qed.

Lemma remove_dashes_app a b :
  remove_dashes (a +:+ b) = remove_dashes a +:+ remove_dashes b.
Proof.
  induction a as [|c a IH]; simpl; [reflexivity |].
  destruct (is_dash c); simpl; rewrite IH; reflexivity.
Qed.

Lemma remove_dashes_no_dash s : no_dash s = true -> remove_dashes s = s.
Proof.
  unfold no_dash. induction s as [|c s IH]; simpl; [reflexivity |].
  intros H. apply andb_prop in H as [Hc Hs].
  destruct (is_dash c); [discriminate |]. rewrite (IH Hs). reflexivity.
Qed.

Lemma dash_positions_from_app i a b :
  dash_positions_from i (a +:+ b)
  = (dash_positions_from i a
     ++ dash_positions_from (i + String.length a) b)%list.
Proof.
  revert i. induction a as [|c a IH]; intros i; simpl.
  - rewrite Nat.add_0_r. reflexivity.
  - rewrite IH, <- Nat.add_succ_comm. destruct (is_dash c); reflexivity.
Qed.

Lemma dash_positions_from_no_dash i s :
  no_dash s = true -> dash_positions_from i s = [].
Proof.
  unfold no_dash. revert i. induction s as [|c s IH]; intros i; simpl; [reflexivity |].
  intros H. apply andb_prop in H as [Hc Hs].
  destruct (is_dash c); [discriminate |]. apply IH, Hs.
Qed.

(** The five groups of a raw identifier. *)
Lemma raw_id_groups raw :
  String.length raw = 32%nat ->
  exists a b c d e,
    raw = a +:+ b +:+ c +:+ d +:+ e
    /\ String.length a = 8%nat /\ String.length b = 4%nat
    /\ String.length c = 4%nat /\ String.length d = 4%nat
    /\ String.length e = 12%nat
    /\ _format_page_id raw = a +:+ "-" +:+ b +:+ "-" +:+ c +:+ "-" +:+ d +:+ "-" +:+ e.
Proof.
  intros H.
  exists (py_slice raw 0 8), (py_slice raw 8 12), (py_slice raw 12 16),
         (py_slice raw 16 20), (py_slice_from raw 20).
  do 32 (destruct raw as [|? raw]; [simpl in H; discriminate H |]).
  destruct raw; [| simpl in H; discriminate H].
  repeat split; reflexivity.
Qed.

Lemma format_page_id_dashes raw :
  String.length raw = 32%nat -> no_dash raw = true ->
  dash_positions (_format_page_id raw) = [8; 13; 18; 23]%nat
  /\ remove_dashes (_format_page_id raw) = raw.
Proof.
  intros Hlen Hnd.
  destruct (raw_id_groups raw Hlen) as (a & b & c & d & e & Hraw & Ha & Hb & Hc & Hd & He & Hfmt).
  rewrite Hfmt. rewrite Hraw in Hnd. unfold no_dash in Hnd.
  rewrite !str_forall_app in Hnd.
  apply andb_prop in Hnd as [Na Hnd]. apply andb_prop in Hnd as [Nb Hnd].
  apply andb_prop in Hnd as [Nc Hnd]. apply andb_prop in Hnd as [Nd Ne].
  split.
  - unfold dash_positions.
    rewrite !dash_positions_from_app. simpl String.length.
    rewrite Ha, Hb, Hc, Hd.
    rewrite (dash_positions_from_no_dash _ a Na), (dash_positions_from_no_dash _ b Nb),
      (dash_positions_from_no_dash _ c Nc), (dash_positions_from_no_dash _ d Nd),
      (dash_positions_from_no_dash _ e Ne).
    reflexivity.
  - rewrite !remove_dashes_app.
    rewrite (remove_dashes_no_dash a Na), (remove_dashes_no_dash b Nb),
      (remove_dashes_no_dash c Nc), (remove_dashes_no_dash d Nd),
      (remove_dashes_no_dash e Ne).
    rewrite Hraw. reflexivity.
Qed.

(** ** Identifiers *)

(** C5: a raw identifier of exactly 32 characters with no dash is returned
    in the 8-4-4-4-12 form: its five groups in order with a dash after each
    of the first four, so the dashes are at positions 8, 13, 18 and 23 and
    taking them out gives the raw identifier back. *)
Theorem format_page_id_dashed_form raw :
  String.length raw = 32%nat -> no_dash raw = true ->
  (exists a b c d e,
     raw = a +:+ b +:+ c +:+ d +:+ e
     /\ String.length a = 8%nat /\ String.length b = 4%nat
     /\ String.length c = 4%nat /\ String.length d = 4%nat
     /\ String.length e = 12%nat
     /\ _format_page_id raw = a +:+ "-" +:+ b +:+ "-" +:+ c +:+ "-" +:+ d +:+ "-" +:+ e)
  /\ String.length (_format_page_id raw) = 36%nat
  /\ dash_positions (_format_page_id raw) = [8; 13; 18; 23]%nat
  /\ remove_dashes (_format_page_id raw) = raw.
Proof.
  intros Hlen Hnd. split; [exact (raw_id_groups raw Hlen) |].
  split; [rewrite format_page_id_length, Hlen; reflexivity |].
  exact (format_page_id_dashes raw Hlen Hnd).
Qed.

Lemma format_page_id_dashed_form_witness :
  let raw := "0123456789abcdef0123456789abcdef" in
  _format_page_id raw = "01234567-89ab-cdef-0123-456789abcdef"
  /\ dash_positions (_format_page_id raw) = [8; 13; 18; 23]%nat
  /\ remove_dashes (_format_page_id raw) = raw.
Proof.
  pose proof (format_page_id_dashed_form "0123456789abcdef0123456789abcdef"
                eq_refl eq_refl) as (_ & _ & Hpos & Hrm).
  split; [reflexivity | split; [exact Hpos | exact Hrm]].
Defined.

(** C4: formatting is not idempotent.  For a valid raw identifier the
    formatted identifier is canonical, but formatting it again gives a
    string of 40 characters, which is neither canonical nor equal to the
    result of formatting once. *)
Theorem format_page_id_not_idempotent raw :
  valid_raw_id raw = true ->
  is_canonical_id (_format_page_id raw) = true
  /\ is_canonical_id (_format_page_id (_format_page_id raw)) = false
  /\ _format_page_id (_format_page_id raw) <> _format_page_id raw.
Proof.
  unfold valid_raw_id. intros H. apply andb_prop in H as [Hlen Hhex].
  apply Nat.eqb_eq in Hlen.
  assert (Hnd : no_dash raw = true).
  { unfold no_dash. revert Hhex. apply str_forall_impl, hex_digit_not_dash. }
  destruct (format_page_id_dashes raw Hlen Hnd) as [Hpos Hrm].
  split; [| split].
  - unfold is_canonical_id.
    rewrite format_page_id_length, Hlen, Hpos, Hrm, Hhex. reflexivity.
  - unfold is_canonical_id.
    rewrite !format_page_id_length, Hlen. reflexivity.
  - intros Heq. apply (f_equal String.length) in Heq.
    rewrite !format_page_id_length in Heq. lia.
Qed.

Lemma format_page_id_not_idempotent_witness :
  let raw := "0123456789abcdef0123456789abcdef" in
  is_canonical_id (_format_page_id raw) = true
  /\ is_canonical_id (_format_page_id (_format_page_id raw)) = false
  /\ _format_page_id (_format_page_id raw) <> _format_page_id raw.
Proof.
  apply format_page_id_not_idempotent. reflexivity.
Defined.

Example format_page_id_twice :
  _format_page_id (_format_page_id "0123456789abcdef0123456789abcdef")
  = "01234567--89a-b-cd-ef-0-123-456789abcdef".
Proof. reflexivity. Qed.

Lemma find_from_eq sub s i :
  find_from sub s i
  = if String.prefix sub s then i
    else match s with
         | EmptyString => -1
         | String _ s' => find_from sub s' (i + 1)
         end.
Proof. destruct s; reflexivity. Qed.

Lemma str_drop_0 s : str_drop 0 s = s.
Proof. destruct s; reflexivity. Qed.

Lemma find_from_first sub n : forall s i,
  (forall k, (k < n)%nat -> occurs_at sub s k = false) ->
  occurs_at sub s n = true ->
  find_from sub s i = i + Z.of_nat n.
Proof.
  induction n as [|n IH]; intros s i Hbefore Hat.
  - unfold occurs_at in Hat. rewrite str_drop_0 in Hat.
    rewrite find_from_eq, Hat. lia.
  - pose proof (Hbefore 0%nat ltac:(lia)) as H0.
    unfold occurs_at in H0, Hat. rewrite str_drop_0 in H0.
    rewrite find_from_eq, H0.
    destruct s as [|c s].
    + simpl str_drop in Hat. congruence.
    + simpl str_drop in Hat.
      rewrite (IH s (i + 1)); [lia | | exact Hat].
      intros k Hk. exact (Hbefore (S k) ltac:(lia)).
Qed.

Lemma no_occurrence_before_spec sub s n :
  no_occurrence_before sub s n = true ->
  forall k, (k < n)%nat -> occurs_at sub s k = false.
Proof.
  unfold no_occurrence_before. intros H k Hk.
  rewrite forallb_forall in H.
  apply negb_true_iff, H, in_seq. lia.
Qed.

Lemma prefix_app p s : String.prefix p (p +:+ s) = true.
Proof.
  induction p as [|c p IH]; simpl; [destruct s; reflexivity |].
  destruct (ascii_dec c c) as [_ | Hne]; [exact IH | contradiction].
Qed.

(** C6: for a URL made of a prefix, 32 characters, the marker "?v=" and a
    suffix, where the marker starts nowhere before the end of the 32
    characters, the extraction returns exactly those 32 characters. *)
Theorem extract_dbid_from_url pre dbid suffix :
  String.length dbid = 32%nat ->
  no_occurrence_before "?v=" (pre +:+ dbid +:+ "?v=" +:+ suffix)
    (String.length pre + 32) = true ->
  _extract_dbid_from_http_url (pre +:+ dbid +:+ "?v=" +:+ suffix) = dbid.
Proof.
  intros Hlen Hfirst.
  set (http_url := pre +:+ dbid +:+ "?v=" +:+ suffix) in *.
  assert (Hfind : py_find http_url "?v=" = Z.of_nat (String.length pre + 32)).
  { unfold py_find. rewrite (find_from_first "?v=" (String.length pre + 32)).
    - lia.
    - apply no_occurrence_before_spec, Hfirst.
    - unfold occurs_at, http_url. rewrite <- Hlen, <- length_app_str.
      rewrite <- app_assoc_str, str_drop_app. apply (prefix_app "?v="). }
  unfold _extract_dbid_from_http_url. rewrite Hfind.
  unfold py_slice, slice_bound.
  assert (Htotal : String.length http_url
                   = (String.length pre + 32 + 3 + String.length suffix)%nat).
  { unfold http_url. rewrite !length_app_str, Hlen. simpl. lia. }
  rewrite Htotal.
  destruct (Z.ltb_spec (Z.of_nat (String.length pre + 32) - 32) 0); [lia |].
  destruct (Z.ltb_spec (Z.of_nat (String.length pre + 32)) 0); [lia |].
  replace (Z.to_nat _) with (String.length dbid) by lia.
  replace (Z.to_nat _) with (String.length pre) by lia.
  unfold http_url. rewrite str_drop_app, str_take_app. reflexivity.
Qed.

Lemma extract_dbid_from_url_witness :
  _extract_dbid_from_http_url
    ("https://www.notion.so/team/" +:+ "0123456789abcdef0123456789abcdef"
     +:+ "?v=" +:+ "fedcba9876543210fedcba9876543210")
  = "0123456789abcdef0123456789abcdef".
Proof.
  apply extract_dbid_from_url; reflexivity.
Defined.

(** ** The table *)

Lemma get_properties_keys_ok page ks :
  get_properties_keys page = Ok ks -> ks = page_keys page.
Proof.
  unfold get_properties_keys, page_keys.
  destruct (properties page); intros H; inversion H; reflexivity.
Qed.

Lemma add_label_idemp {A : Type} `{EqDecision A} (x : A) l :
  add_label x (add_label x l) = add_label x l.
Proof.
  unfold add_label. destruct (decide (x ∈ l)) as [Hin | Hin].
  - rewrite (bool_decide_eq_true_2 (x ∈ l)) by exact Hin.
    rewrite (bool_decide_eq_true_2 (x ∈ l)) by exact Hin. reflexivity.
  - rewrite (bool_decide_eq_false_2 (x ∈ l)) by exact Hin.
    rewrite bool_decide_eq_true_2; [reflexivity |].
    apply elem_of_app. right. apply list_elem_of_singleton. reflexivity.
Qed.

Lemma add_label_fresh {A : Type} `{EqDecision A} (x : A) l :
  x ∉ l -> add_label x l = (l ++ [x])%list.
Proof. intros H. unfold add_label. rewrite bool_decide_eq_false_2; [reflexivity | exact H]. Qed.

(** Adding labels keeps the old ones in place and appends each new one once. *)
Lemma extend_labels (ks : list string) : forall cols,
  exists extra,
    foldl (fun cs k => add_label k cs) cols ks = (cols ++ extra)%list
    /\ NoDup extra
    /\ (forall c, (c ∈ extra) <-> ((c ∉ cols) /\ (c ∈ ks))).
Proof.
  induction ks as [|k ks IH]; intros cols; simpl.
  - exists []. rewrite app_nil_r. split; [reflexivity |].
    split; [constructor |]. intros c. set_solver.
  - unfold add_label at 2. case_bool_decide as Hin.
    + destruct (IH cols) as (extra & Heq & Hnd & Hmem).
      exists extra. split; [exact Heq |]. split; [exact Hnd |].
      intros c. rewrite Hmem. set_solver.
    + destruct (IH (cols ++ [k])%list) as (extra & Heq & Hnd & Hmem).
      exists (k :: extra). rewrite Heq, <- app_assoc. split; [reflexivity |].
      split.
      * constructor; [| exact Hnd]. rewrite Hmem. set_solver.
      * intros c. rewrite elem_of_cons, Hmem.
        destruct (decide (c = k)) as [-> | Hne]; set_solver.
Qed.

Section TableProofs.
Variable cell_store : json -> result json.

Lemma fill_row_ok page x ks : forall df df',
  fill_row cell_store page x ks df = Ok df' ->
  df_columns df' = foldl (fun cs k => add_label k cs) (df_columns df) ks
  /\ df_index df' = match ks with
                    | [] => df_index df
                    | _ :: _ => add_label x (df_index df)
                    end
  /\ (forall y k, y <> x \/ k ∉ ks ->
                  df_cells df' !! (y, k) = df_cells df !! (y, k))
  /\ (forall k, k ∈ ks -> populated cell_store page k (df_cells df' !! (x, k))).
Proof.
  induction ks as [|key ks IH]; intros df df' H; simpl in H.
  - inversion H; subst df'. repeat split; try reflexivity.
    intros k Hk. inversion Hk.
  - destruct (get_property_value page key) as [value|] eqn:Hval; [| discriminate H].
    simpl in H. unfold df_at_set in H.
    destruct (cell_store value) as [stored|] eqn:Hst; [| discriminate H].
    simpl in H. apply IH in H as (Hcols & Hidx & Hother & Hpop).
    simpl in Hcols, Hidx, Hother.
    split; [exact Hcols |]. split.
    { rewrite Hidx. destruct ks; [reflexivity | apply add_label_idemp]. }
    split.
    + intros y k Hyk. rewrite Hother.
      * apply lookup_insert_ne. intros Heq. inversion Heq; subst.
        destruct Hyk as [Hy | Hk]; [congruence |].
        apply Hk, elem_of_cons. left. reflexivity.
      * destruct Hyk as [Hy | Hk]; [left; exact Hy | right].
        intros Hin. apply Hk, elem_of_cons. right. exact Hin.
    + intros k Hk. destruct (decide (k ∈ ks)) as [Hin | Hnin].
      * apply Hpop, Hin.
      * apply elem_of_cons in Hk as [-> | Hk]; [| contradiction].
        exists value, stored. split; [exact Hval |]. split; [exact Hst |].
        rewrite Hother by (right; exact Hnin). apply lookup_insert_eq.
Qed.

Lemma fill_row_total page x ks : forall df,
  forallb (property_decodes cell_store page) ks = true ->
  exists df', fill_row cell_store page x ks df = Ok df'.
Proof.
  induction ks as [|key ks IH]; intros df H; simpl.
  - exists df. reflexivity.
  - simpl in H. apply andb_prop in H as [Hk Hks].
    unfold property_decodes in Hk.
    destruct (get_property_value page key) as [value|]; [| discriminate Hk].
    simpl. unfold df_at_set.
    destruct (cell_store value) as [stored|]; [| discriminate Hk].
    simpl. apply IH, Hks.
Qed.

Lemma fill_rows_total pages : forall x df,
  forallb (page_decodes cell_store) pages = true ->
  exists df', fill_rows cell_store x pages df = Ok df'.
Proof.
  induction pages as [|page pages IH]; intros x df H; simpl.
  - exists df. reflexivity.
  - simpl in H. apply andb_prop in H as [Hp Hps].
    unfold page_decodes in Hp.
    destruct (get_properties_keys page) as [ks|]; [| discriminate Hp].
    simpl. destruct (fill_row_total page x ks df Hp) as [df1 ->].
    simpl. apply IH, Hps.
Qed.

(** The rows filled from row [x] on, for a frame that has nothing at or
    after row [x] yet. *)
Lemma fill_rows_ok pages : forall x df df',
  fill_rows cell_store x pages df = Ok df' ->
  (forall y, y ∈ df_index df -> (y < x)%nat) ->
  df_columns df'
  = foldl (fun cs k => add_label k cs) (df_columns df) (concat (map page_keys pages))
  /\ df_index df' = (df_index df ++ rows_from x pages)%list
  /\ (forall y k, (y < x)%nat -> df_cells df' !! (y, k) = df_cells df !! (y, k))
  /\ (forall i page k, pages !! i = Some page ->
        if decide (k ∈ page_keys page)
        then populated cell_store page k (df_cells df' !! ((x + i)%nat, k))
        else df_cells df' !! ((x + i)%nat, k) = df_cells df !! ((x + i)%nat, k)).
Proof.
  induction pages as [|page pages IH]; intros x df df' H Hidx; simpl in H.
  - inversion H; subst df'. simpl. rewrite app_nil_r.
    repeat split; try reflexivity. intros i page k Hi. inversion Hi.
  - destruct (get_properties_keys page) as [ks|] eqn:Hks; [| discriminate H].
    apply get_properties_keys_ok in Hks. subst ks. simpl in H.
    destruct (fill_row cell_store page x (page_keys page) df) as [df1|] eqn:Hrow;
      [| discriminate H].
    simpl in H.
    apply fill_row_ok in Hrow as (Hcols1 & Hidx1 & Hother1 & Hpop1).
    assert (Hidx1' : df_index df1
                     = (df_index df ++ match page_keys page with
                                       | [] => []
                                       | _ :: _ => [x]
                                       end)%list).
    { rewrite Hidx1. destruct (page_keys page); [rewrite app_nil_r; reflexivity |].
      apply add_label_fresh. intros Hin. apply Hidx in Hin. lia. }
    apply IH in H as (Hcols & Hidx' & Hbelow & Hrows).
    2:{ intros y Hy. rewrite Hidx1' in Hy. apply elem_of_app in Hy as [Hy | Hy].
        - apply Hidx in Hy. lia.
        - destruct (page_keys page); [inversion Hy |].
          apply list_elem_of_singleton in Hy. lia. }
    split.
    { rewrite Hcols, Hcols1. simpl. rewrite foldl_app. reflexivity. }
    split.
    { rewrite Hidx', Hidx1'. simpl.
      destruct (page_keys page); [rewrite app_nil_r; reflexivity |].
      rewrite <- app_assoc. reflexivity. }
    split.
    { intros y k Hy. rewrite Hbelow by lia. apply Hother1. left. lia. }
    intros i page' k Hi. destruct i as [|i]; simpl in Hi.
    + inversion Hi; subst page'. rewrite Nat.add_0_r.
      rewrite Hbelow by lia.
      destruct (decide (k ∈ page_keys page)) as [Hin | Hnin].
      * apply Hpop1, Hin.
      * apply Hother1. right. exact Hnin.
    + specialize (Hrows i page' k Hi).
      replace (x + S i)%nat with (S x + i)%nat by lia.
      destruct (decide (k ∈ page_keys page')) as [Hin | Hnin]; [exact Hrows |].
      rewrite Hrows. apply Hother1. left. lia.
Qed.
End TableProofs.

Lemma elem_of_all_keys c pages :
  c ∈ concat (map page_keys pages)
  <-> exists page, page ∈ pages /\ c ∈ page_keys page.
Proof.
  induction pages as [|p pages IH]; simpl.
  - split; [intros H; inversion H | intros (page & H & _); inversion H].
  - rewrite elem_of_app, IH. split.
    + intros [H | (page & Hp & Hc)].
      * exists p. split; [apply elem_of_cons; left; reflexivity | exact H].
      * exists page. split; [apply elem_of_cons; right; exact Hp | exact Hc].
    + intros (page & Hp & Hc). apply elem_of_cons in Hp as [-> | Hp].
      * left. exact Hc.
      * right. exists page. split; assumption.
Qed.

(** C8: for the empty list of records no table is returned: indexing
    [notion_pages[0]] raises (Python's [IndexError]), whatever the table
    would do with values. *)
Theorem pages_to_dataframe_empty (cell_store : json -> result json) :
  pages_to_dataframe cell_store [] = Err IndexError
  /\ is_ok (pages_to_dataframe cell_store []) = false.
Proof. split; reflexivity. Qed.

(** C2 as stated fails: when the second record has a property the first
    one lacks, the table gets a column for it, so its columns are not the
    property names of the first record. *)
Lemma later_record_adds_column :
  let A := page_with [("Name", title_payload "a")] in
  let B := page_with [("Name", title_payload "b"); ("Status", select_payload "Done")] in
  exists df,
    pages_to_dataframe keep_value [A; B] = Ok df
    /\ get_properties_keys A = Ok ["Name"]
    /\ df_columns df = ["Name"; "Status"]
    /\ df_columns df <> ["Name"].
Proof.
  eexists. split; [reflexivity |]. split; [reflexivity |].
  split; [reflexivity | discriminate].
Qed.

(** C2, amended: for a non-empty list of records in which every property
    decodes to a value the table accepts in a cell ([page_decodes]), the
    table is returned; its columns are the property names of
    the first record in its key order, followed by the names that only
    later records have, each once, so they are exactly the first record's
    names when no later record has a name the first lacks; its rows are the
    positions of the records that have a property, in input order; the cell
    of a property a record has holds its decoded value, and the cell of a
    property a record lacks is absent. *)
Theorem pages_to_dataframe_table (cell_store : json -> result json) first rest :
  forallb (page_decodes cell_store) (first :: rest) = true ->
  exists df,
    pages_to_dataframe cell_store (first :: rest) = Ok df
    /\ (exists extra,
          df_columns df = (page_keys first ++ extra)%list
          /\ NoDup extra
          /\ (forall c, (c ∈ extra)
                        <-> ((c ∉ page_keys first)
                             /\ exists page, page ∈ rest /\ c ∈ page_keys page)))
    /\ ((forall page c, page ∈ rest -> c ∈ page_keys page -> c ∈ page_keys first) ->
        df_columns df = page_keys first)
    /\ df_index df = rows_from 0 (first :: rest)
    /\ (forall x page key, (first :: rest) !! x = Some page ->
          if decide (key ∈ page_keys page)
          then populated cell_store page key (df_cells df !! (x, key))
          else df_cells df !! (x, key) = None).
Proof.
  intros Hdec.
  assert (Hkeys : get_properties_keys first = Ok (page_keys first)).
  { simpl in Hdec. apply andb_prop in Hdec as [Hp _]. unfold page_decodes in Hp.
    destruct (get_properties_keys first) as [ks|] eqn:E; [| discriminate Hp].
    rewrite (get_properties_keys_ok first ks E). reflexivity. }
  destruct (fill_rows_total cell_store (first :: rest) 0
              (DataFrame_new (page_keys first)) Hdec) as [df Hdf].
  exists df. split.
  { unfold pages_to_dataframe. rewrite Hkeys. exact Hdf. }
  apply fill_rows_ok in Hdf as (Hcols & Hidx & _ & Hrows);
    [| intros y Hy; inversion Hy].
  simpl df_columns in Hcols. simpl df_index in Hidx.
  destruct (extend_labels (concat (map page_keys (first :: rest))) (page_keys first))
    as (extra & Heq & Hnd & Hmem).
  assert (Hextra : forall c, (c ∈ extra)
            <-> ((c ∉ page_keys first)
                 /\ exists page, page ∈ rest /\ c ∈ page_keys page)).
  { intros c. rewrite Hmem. simpl. rewrite elem_of_app, elem_of_all_keys. tauto. }
  split; [| split; [| split]].
  - exists extra. rewrite Hcols, Heq. split; [reflexivity |]. split; assumption.
  - intros Hsub. rewrite Hcols, Heq.
    destruct extra as [|c extra]; [apply app_nil_r |].
    exfalso. destruct (proj1 (Hextra c)) as (Hnin & page & Hp & Hc).
    { apply elem_of_cons. left. reflexivity. }
    apply Hnin. exact (Hsub page c Hp Hc).
  - exact Hidx.
  - intros x page key Hx. specialize (Hrows x page key Hx). simpl in Hrows.
    destruct (decide (key ∈ page_keys page)); [exact Hrows |].
    rewrite Hrows. reflexivity.
Qed.

Lemma pages_to_dataframe_table_witness :
  let A := page_with [("Name", title_payload "a"); ("Status", select_payload "Done")] in
  let B := page_with [("Name", title_payload "b")] in
  exists df,
    pages_to_dataframe keep_value [A; B] = Ok df
    /\ df_columns df = ["Name"; "Status"]
    /\ df_index df = [0; 1]%nat
    /\ populated keep_value A "Name" (df_cells df !! (0%nat, "Name"))
    /\ populated keep_value A "Status" (df_cells df !! (0%nat, "Status"))
    /\ populated keep_value B "Name" (df_cells df !! (1%nat, "Name"))
    /\ df_cells df !! (1%nat, "Status") = None.
Proof.
  intros A B.
  destruct (pages_to_dataframe_table keep_value A [B] eq_refl)
    as (df & Hdf & _ & Hcols & Hidx & Hcells).
  exists df. split; [exact Hdf |]. split.
  { rewrite Hcols; [reflexivity |]. intros page c Hp Hc.
    apply list_elem_of_singleton in Hp. subst page.
    apply list_elem_of_singleton in Hc. subst c.
    apply elem_of_cons. left. reflexivity. }
  split; [exact Hidx |].
  split; [exact (Hcells 0%nat A "Name" eq_refl) |].
  split; [exact (Hcells 0%nat A "Status" eq_refl) |].
  split; [exact (Hcells 1%nat B "Name" eq_refl) |].
  exact (Hcells 1%nat B "Status" eq_refl).
Defined.

(** ** Querying *)

(** One round of the loop is one [post_request]. *)
Lemma query_loop_round self db json_content json_results srv :
  query_loop self db json_content json_results (pending srv) (sent srv)
  = do has_more <- py_getitem_str json_content "has_more";
    if py_truthy has_more then
      do next_cursor <- py_getitem_str json_content "next_cursor";
      do r <- post_request srv (query_url db) (_build_headers self) None
                (Some (JObj [("start_cursor", next_cursor)]));
      do more <- py_getitem_str (content (fst r)) "results";
      do json_results' <- py_iadd json_results more;
      query_loop self db (content (fst r)) json_results'
        (pending (snd r)) (sent (snd r))
    else Ok (json_results, srv).
Proof.
  destruct srv as [later log]. unfold post_request. simpl pending. simpl sent.
  destruct later as [|response later]; [reflexivity |].
  simpl. destruct (py_getitem_str json_content "has_more") as [has_more|];
    [| reflexivity].
  simpl. destruct (py_truthy has_more); [| reflexivity].
  destruct (py_getitem_str json_content "next_cursor"); [| reflexivity].
  simpl. destruct (http_error (status_code response)); reflexivity.
Qed.

Lemma query_loop_last self db results cursor acc later log :
  query_loop self db (response results false cursor) acc later log
  = Ok (acc, {| pending := later; sent := log |}).
Proof. destruct later; reflexivity. Qed.

Lemma query_loop_more self db results cursor acc json_content later log :
  query_loop self db (response results true cursor) acc
    (answered json_content :: later) log
  = do more <- py_getitem_str json_content "results";
    do acc' <- py_iadd acc more;
    query_loop self db json_content acc' later
      (log ++ [follow_up self db cursor])%list.
Proof. reflexivity. Qed.

Lemma query_loop_pages self db (more : list (list json * json)) :
  forall results cursor acc last last_cursor rest log,
    query_loop self db (response results true cursor) (JArr acc)
      (map answered (map more_page more)
       ++ answered (response last false last_cursor) :: rest)%list log
    = Ok (JArr (acc ++ concat (map fst more) ++ last)%list,
          {| pending := rest;
             sent := (log ++ map (follow_up self db) (cursor :: map snd more))%list |}).
Proof.
  induction more as [|[res cur] more IH];
    intros results cursor acc last last_cursor rest log.
  - simpl app. rewrite query_loop_more. simpl bind.
    rewrite query_loop_last. reflexivity.
  - simpl map. simpl app. rewrite query_loop_more.
    unfold more_page at 1. simpl bind.
    unfold more_page at 1. simpl fst. simpl snd. rewrite IH.
    simpl. rewrite <- !app_assoc. reflexivity.
Qed.

(** The fetch over any pages: [more] are the pages that announce a further
    page, [last] is the first one that does not. *)
Lemma query_fetch_pages self db query (more : list (list json * json))
  last last_cursor rest log :
  query_fetch self
    {| pending := (map answered (map more_page more)
                   ++ answered (response last false last_cursor) :: rest)%list;
       sent := log |} db query
  = Ok (JArr (concat (map fst more) ++ last)%list,
        {| pending := rest;
           sent := (log ++ first_request self db query
                        :: map (follow_up self db) (map snd more))%list |}).
Proof.
  unfold query_fetch, post_request.
  destruct more as [|[res cur] more]; simpl pending; simpl sent.
  - simpl app. simpl bind. rewrite query_loop_last. reflexivity.
  - simpl map. simpl app. unfold more_page at 1. simpl bind.
    rewrite query_loop_pages. simpl. rewrite <- !app_assoc. reflexivity.
Qed.

Lemma mapM_ok {A B : Type} (f : A -> result B) l :
  forallb (fun x => is_ok (f x)) l = true -> exists ys, mapM f l = Ok ys.
Proof.
  induction l as [|x l IH]; simpl; intros H.
  - exists []. reflexivity.
  - apply andb_prop in H as [Hx Hl]. destruct (f x) as [y|]; [| discriminate Hx].
    destruct (IH Hl) as [ys ->]. exists (y :: ys). reflexivity.
Qed.

(** C3: over any pages of the service, the fetch sends the query first and
    then, for every page that announces a further one, a follow-up request
    with that page's cursor, and returns the results of all pages in page
    order; [query_db] returns them as "json" when every record is a page.
    For three pages of 100, 100 and 37 results (has_more true, true, false)
    it returns 237 records with 3 requests, the second and third carrying
    the cursor of the page before. *)
Theorem query_fetch_all_pages (cell_store : json -> result json) self db query :
  (forall (more : list (list json * json)) last last_cursor rest log,
     query_fetch self
       {| pending := (map answered (map more_page more)
                      ++ answered (response last false last_cursor) :: rest)%list;
          sent := log |} db query
     = Ok (JArr (concat (map fst more) ++ last)%list,
           {| pending := rest;
              sent := (log ++ first_request self db query
                           :: map (follow_up self db) (map snd more))%list |}))
  /\ (forall (more : list (list json * json)) last last_cursor rest log,
        forallb (fun r => is_ok (NotionPage_init r))
          (concat (map fst more) ++ last)%list = true ->
        query_db cell_store self
          {| pending := (map answered (map more_page more)
                         ++ answered (response last false last_cursor) :: rest)%list;
             sent := log |} db query "json"
        = Ok (RJson (JArr (concat (map fst more) ++ last)%list),
              {| pending := rest;
                 sent := (log ++ first_request self (db_id db) query
                              :: map (follow_up self (db_id db)) (map snd more))%list |}))
  /\ (forall r1 r2 r3 c1 c2 c3 rest,
        List.length r1 = 100%nat -> List.length r2 = 100%nat ->
        List.length r3 = 37%nat ->
        exists records srv,
          query_fetch self
            {| pending := answered (response r1 true c1)
                          :: answered (response r2 true c2)
                          :: answered (response r3 false c3) :: rest;
               sent := [] |} db query
          = Ok (JArr records, srv)
          /\ records = (r1 ++ r2 ++ r3)%list
          /\ List.length records = 237%nat
          /\ sent srv = [ first_request self db query;
                          follow_up self db c1; follow_up self db c2 ]
          /\ List.length (sent srv) = 3%nat
          /\ pending srv = rest).
Proof.
  split; [| split].
  - intros. apply query_fetch_pages.
  - intros more last last_cursor rest log Hpages.
    unfold query_db. fold (db_id db). rewrite query_fetch_pages.
    simpl bind. destruct (mapM_ok NotionPage_init _ Hpages) as [pages ->].
    reflexivity.
  - intros r1 r2 r3 c1 c2 c3 rest H1 H2 H3.
    pose proof (query_fetch_pages self db query [(r1, c1); (r2, c2)] r3 c3 rest [])
      as Hfetch.
    unfold more_page in Hfetch. simpl in Hfetch.
    rewrite app_nil_r, <- app_assoc in Hfetch.
    exists (r1 ++ r2 ++ r3)%list. eexists. split; [exact Hfetch |].
    split; [reflexivity |]. split; [| repeat split].
    rewrite !length_app, H1, H2, H3. reflexivity.
Qed.

Lemma query_fetch_all_pages_witness :
  let self := {| NOTION_API_KEY := "secret_key" |} in
  let db := "0123456789abcdef0123456789abcdef" in
  let r1 := replicate 100 (JObj []) in
  let r2 := replicate 100 (JObj []) in
  let r3 := replicate 37 (JObj []) in
  exists records srv,
    query_fetch self
      {| pending := [ answered (response r1 true (JStr "c1"));
                      answered (response r2 true (JStr "c2"));
                      answered (response r3 false JNull) ];
         sent := [] |} db ""
    = Ok (JArr records, srv)
    /\ List.length records = 237%nat
    /\ sent srv = [ first_request self db "";
                    follow_up self db (JStr "c1"); follow_up self db (JStr "c2") ].
Proof.
  intros self db r1 r2 r3.
  destruct (proj2 (proj2 (query_fetch_all_pages keep_value self db ""))
              r1 r2 r3 (JStr "c1") (JStr "c2") JNull [] eq_refl eq_refl eq_refl)
    as (records & srv & Hfetch & _ & Hlen & Hsent & _ & _).
  exists records, srv. split; [exact Hfetch |]. split; [exact Hlen | exact Hsent].
Defined.

Lemma eqb_false_of_neq (a b : string) : a <> b -> String.eqb a b = false.
Proof. intros H. apply String.eqb_neq. exact H. Qed.

Lemma page_init_missing_attribute l :
  forallb (has_key l) page_fields = false -> NotionPage_init (JObj l) = Err KeyError.
Proof.
  unfold page_fields, has_key, NotionPage_init, py_getitem_str, dict_get. simpl.
  destruct (assoc "object" l); [| reflexivity].
  destruct (assoc "id" l); [| reflexivity].
  destruct (assoc "created_time" l); [| reflexivity].
  destruct (assoc "last_edited_time" l); [| reflexivity].
  destruct (assoc "cover" l); [| reflexivity].
  destruct (assoc "icon" l); [| reflexivity].
  destruct (assoc "parent" l); [| reflexivity].
  destruct (assoc "archived" l); [| reflexivity].
  destruct (assoc "properties" l); [| reflexivity].
  destruct (assoc "url" l); [discriminate | reflexivity].
Qed.

Lemma mapM_stops {A B : Type} (f : A -> result B) before bad after e :
  forallb (fun x => is_ok (f x)) before = true ->
  f bad = Err e ->
  mapM f (before ++ bad :: after)%list = Err e.
Proof.
  intros Hb Hbad. induction before as [|x before IH]; simpl in *.
  - rewrite Hbad. reflexivity.
  - apply andb_prop in Hb as [Hx Hb]. destruct (f x) as [y|]; [| discriminate Hx].
    simpl. rewrite (IH Hb). reflexivity.
Qed.

(** C10: for a [return_type] other than "dataframe", "json" and
    "NotionPage", [query_db] is the fetch followed by the wrapping of every
    fetched record, with [None] as the value returned and the errors of
    these two steps as its only errors.  So over any pages whose records
    are pages it sends the query and every follow-up request, takes every
    response, and returns [None]; and when a fetched record lacks an
    attribute of a page, the wrapping raises [KeyError]. *)
Theorem query_db_unknown_return_type
  (cell_store : json -> result json) self db query return_type :
  return_type <> "dataframe" -> return_type <> "json" ->
  return_type <> "NotionPage" ->
  (forall srv,
     query_db cell_store self srv db query return_type
     = do r <- query_fetch self srv (db_id db) query;
       do items <- py_iter (fst r);
       do notion_pages <- mapM NotionPage_init items;
       Ok (RNone, snd r))
  /\ (forall (more : list (list json * json)) last last_cursor rest log,
        forallb (fun r => is_ok (NotionPage_init r))
          (concat (map fst more) ++ last)%list = true ->
        query_db cell_store self
          {| pending := (map answered (map more_page more)
                         ++ answered (response last false last_cursor) :: rest)%list;
             sent := log |} db query return_type
        = Ok (RNone,
              {| pending := rest;
                 sent := (log ++ first_request self (db_id db) query
                              :: map (follow_up self (db_id db)) (map snd more))%list |}))
  /\ (forall (more : list (list json * json)) last last_cursor rest log
             before l after,
        (concat (map fst more) ++ last)%list = (before ++ JObj l :: after)%list ->
        forallb (fun r => is_ok (NotionPage_init r)) before = true ->
        forallb (has_key l) page_fields = false ->
        query_db cell_store self
          {| pending := (map answered (map more_page more)
                         ++ answered (response last false last_cursor) :: rest)%list;
             sent := log |} db query return_type
        = Err KeyError).
Proof.
  intros Hd Hj Hn.
  assert (Hgen : forall srv,
     query_db cell_store self srv db query return_type
     = do r <- query_fetch self srv (db_id db) query;
       do items <- py_iter (fst r);
       do notion_pages <- mapM NotionPage_init items;
       Ok (RNone, snd r)).
  { intros srv. unfold query_db. fold (db_id db).
    rewrite (eqb_false_of_neq _ _ Hd), (eqb_false_of_neq _ _ Hj),
      (eqb_false_of_neq _ _ Hn).
    reflexivity. }
  split; [exact Hgen |]. split.
  - intros more last last_cursor rest log Hpages.
    rewrite Hgen, query_fetch_pages. simpl bind.
    destruct (mapM_ok NotionPage_init _ Hpages) as [pages ->]. reflexivity.
  - intros more last last_cursor rest log before l after Hrec Hbefore Hl.
    rewrite Hgen, query_fetch_pages. simpl bind. rewrite Hrec.
    rewrite (mapM_stops NotionPage_init before (JObj l) after KeyError Hbefore
               (page_init_missing_attribute l Hl)).
    reflexivity.
Qed.

Lemma query_db_unknown_return_type_witness :
  let self := {| NOTION_API_KEY := "secret_key" |} in
  let page := JObj [ ("object", JStr "page"); ("id", JStr "p");
                     ("created_time", JNull); ("last_edited_time", JNull);
                     ("cover", JNull); ("icon", JNull); ("parent", JNull);
                     ("archived", JBool false); ("properties", JObj []);
                     ("url", JNull) ] in
  let torn := [ ("object", JStr "page"); ("id", JStr "q") ] in
  query_db keep_value self
    {| pending := [ answered (response [page] true (JStr "c1"));
                    answered (response [page] false JNull) ];
       sent := [] |} "db" "" "csv"
  = Ok (RNone,
        {| pending := [];
           sent := [ first_request self "db" ""; follow_up self "db" (JStr "c1") ] |})
  /\ query_db keep_value self
       {| pending := [ answered (response [page] true (JStr "c1"));
                       answered (response [JObj torn] false JNull) ];
          sent := [] |} "db" "" "csv"
     = Err KeyError.
Proof.
  intros self page torn.
  destruct (query_db_unknown_return_type keep_value self "db" "" "csv")
    as (_ & Hfetch & Hwrap); [discriminate | discriminate | discriminate |].
  split.
  - exact (Hfetch [([page], JStr "c1")] [page] JNull [] [] eq_refl).
  - exact (Hwrap [([page], JStr "c1")] [JObj torn] JNull [] [] [page] torn []
             eq_refl eq_refl eq_refl).
Defined.

(** * Further properties *)

(** ** Decoding, tag by tag *)

Lemma getitem_field v k x : field k v = Some x -> py_getitem_str v k = Ok x.
Proof.
  destruct v as [| | | | |l]; simpl; try discriminate.
  intros ->. reflexivity.
Qed.

(** Past the guards: a value with items goes to the dispatch table. *)
Lemma get_value_dispatch self t :
  prop_type self = JStr t -> t <> "checkbox" -> t <> "number" ->
  has_items (prop_value self) = true ->
  get_value self = dispatch self.
Proof.
  intros Ht Hc Hn Hv. unfold get_value, type_is. rewrite Ht.
  rewrite (proj2 (String.eqb_neq t "checkbox") Hc),
    (proj2 (String.eqb_neq t "number") Hn).
  destruct (prop_value self) as [| | |[|c s]|[|x l]|[|x l]]; try discriminate Hv;
    reflexivity.
Qed.

Lemma dispatch_tag self t f :
  prop_type self = JStr t ->
  lookup_function t (type_to_function self) = Some f ->
  dispatch self = f.
Proof. intros Ht Hf. unfold dispatch. rewrite Ht, Hf. reflexivity. Qed.

Lemma mapM_fields k items : forall xs,
  map (field k) items = map Some xs ->
  mapM (fun it => py_getitem_str it k) items = Ok xs.
Proof.
  induction items as [|it items IH]; intros [|x xs] H; simpl in H; try discriminate.
  - reflexivity.
  - inversion H as [[Hx Hxs]]. simpl.
    rewrite (getitem_field it k x Hx). simpl. rewrite (IH xs Hxs). reflexivity.
Qed.

(** A [multi_select] payload with at least one option decodes to the names
    of its options, in their order. *)
Theorem multi_select_decodes_to_names self item items names :
  prop_type self = JStr "multi_select" ->
  prop_value self = JArr (item :: items) ->
  map (field "name") (item :: items) = map Some names ->
  get_value self = Ok (JArr names)
  /\ List.length names = S (List.length items).
Proof.
  intros Ht Hv Hn. split.
  - rewrite (get_value_dispatch self "multi_select" Ht) by (discriminate || (rewrite Hv; reflexivity)).
    rewrite (dispatch_tag self _ _ Ht eq_refl).
    unfold _get_multi_select_value. rewrite Hv. unfold py_iter, bind at 1.
    rewrite (mapM_fields "name" (item :: items) names Hn). reflexivity.
  - apply (f_equal (@List.length _)) in Hn. rewrite !length_map in Hn.
    simpl in Hn. symmetry. exact Hn.
Qed.

Lemma multi_select_decodes_to_names_witness :
  let self := {| prop_id := JStr "m"; prop_type := JStr "multi_select";
                 prop_value := JArr [ JObj [("id", JStr "1"); ("name", JStr "A")];
                                      JObj [("id", JStr "2"); ("name", JStr "B")] ] |} in
  get_value self = Ok (JArr [JStr "A"; JStr "B"]).
Proof.
  intros self.
  exact (proj1 (multi_select_decodes_to_names self _ _ [JStr "A"; JStr "B"]
                  eq_refl eq_refl eq_refl)).
Defined.

(** A [relation] payload with at least one entry decodes to the ids of its
    entries, in their order. *)
Theorem relation_decodes_to_ids self item items ids :
  prop_type self = JStr "relation" ->
  prop_value self = JArr (item :: items) ->
  map (field "id") (item :: items) = map Some ids ->
  get_value self = Ok (JArr ids).
Proof.
  intros Ht Hv Hn.
  rewrite (get_value_dispatch self "relation" Ht) by (discriminate || (rewrite Hv; reflexivity)).
  rewrite (dispatch_tag self _ _ Ht eq_refl).
  unfold _get_relation_value. rewrite Hv. unfold py_iter, bind at 1.
  rewrite (mapM_fields "id" (item :: items) ids Hn). reflexivity.
Qed.

Lemma relation_decodes_to_ids_witness :
  let self := {| prop_id := JStr "r"; prop_type := JStr "relation";
                 prop_value := JArr [ JObj [("id", JStr "p1")];
                                      JObj [("id", JStr "p2")] ] |} in
  get_value self = Ok (JArr [JStr "p1"; JStr "p2"]).
Proof.
  intros self.
  exact (relation_decodes_to_ids self _ _ [JStr "p1"; JStr "p2"]
           eq_refl eq_refl eq_refl).
Defined.

(** A list-valued payload with an entry that lacks the field that is read
    ("name" for [multi_select], "id" for [relation]) does not decode: the
    first such entry raises, and no partial list is returned. *)
Theorem list_payload_with_bad_entry_fails self (tag key : string) before bad after :
  (tag = "multi_select" /\ key = "name") \/ (tag = "relation" /\ key = "id") ->
  prop_type self = JStr tag ->
  prop_value self = JArr (before ++ bad :: after)%list ->
  forallb (fun it => match field key it with Some _ => true | None => false end)
    before = true ->
  field key bad = None ->
  get_value self = Err KeyError \/ get_value self = Err TypeError.
Proof.
  intros Htag Ht Hv Hbefore Hbad.
  assert (Hm : mapM (fun it => py_getitem_str it key) (before ++ bad :: after)%list
               = Err KeyError
               \/ mapM (fun it => py_getitem_str it key) (before ++ bad :: after)%list
                  = Err TypeError).
  { clear Hv. induction before as [|it before IH]; simpl in *.
    - destruct bad as [| | | | |l]; simpl in *; auto.
      rewrite Hbad. auto.
    - apply andb_prop in Hbefore as [Hit Hb].
      destruct (field key it) as [x|] eqn:Hx; [| discriminate Hit].
      rewrite (getitem_field it key x Hx). simpl.
      destruct (IH Hb) as [-> | ->]; auto. }
  assert (Hitems : has_items (prop_value self) = true).
  { rewrite Hv. destruct before; reflexivity. }
  assert (Hg : get_value self
               = do xs <- mapM (fun it => py_getitem_str it key)
                            (before ++ bad :: after)%list;
                 Ok (JArr xs)).
  { destruct Htag as [[-> ->] | [-> ->]];
      rewrite (get_value_dispatch self _ Ht) by (discriminate || exact Hitems);
      rewrite (dispatch_tag self _ _ Ht eq_refl).
    - unfold _get_multi_select_value. rewrite Hv. reflexivity.
    - unfold _get_relation_value. rewrite Hv. reflexivity. }
  rewrite Hg. destruct Hm as [-> | ->]; auto.
Qed.

Lemma list_payload_with_bad_entry_fails_witness :
  let self := {| prop_id := JStr "m"; prop_type := JStr "multi_select";
                 prop_value := JArr [ JObj [("name", JStr "A")];
                                      JObj [("id", JStr "2")];
                                      JObj [("name", JStr "C")] ] |} in
  get_value self = Err KeyError \/ get_value self = Err TypeError.
Proof.
  intros self.
  apply (list_payload_with_bad_entry_fails self "multi_select" "name"
           [JObj [("name", JStr "A")]] (JObj [("id", JStr "2")])
           [JObj [("name", JStr "C")]]);
    [left; split; reflexivity | reflexivity | reflexivity | reflexivity | reflexivity].
Defined.

Lemma has_key_assoc l k : has_key l k = true -> exists v, assoc k l = Some v.
Proof. unfold has_key. destruct (assoc k l) as [v|]; [eauto | discriminate]. Qed.

Lemma rich_text_init_ok l :
  forallb (has_key l) rich_text_fields = true ->
  exists r, NotionRichTextObject_init (JObj l) = Ok r
            /\ assoc "plain_text" l = Some (plain_text r).
Proof.
  unfold rich_text_fields. simpl. intros H.
  apply andb_prop in H as [H1 H]. apply andb_prop in H as [H2 H].
  apply andb_prop in H as [H3 H]. apply andb_prop in H as [H4 _].
  apply has_key_assoc in H1 as [v1 E1]. apply has_key_assoc in H2 as [v2 E2].
  apply has_key_assoc in H3 as [v3 E3]. apply has_key_assoc in H4 as [v4 E4].
  unfold NotionRichTextObject_init, py_getitem_str, dict_get.
  rewrite E1, E2, E3, E4. simpl. eexists. split; reflexivity.
Qed.

Lemma rich_text_init_missing l :
  forallb (has_key l) rich_text_fields = false ->
  NotionRichTextObject_init (JObj l) = Err KeyError.
Proof.
  unfold rich_text_fields, has_key, NotionRichTextObject_init, py_getitem_str, dict_get.
  simpl.
  destruct (assoc "plain_text" l); [| reflexivity].
  destruct (assoc "href" l); [| reflexivity].
  destruct (assoc "annotations" l); [| reflexivity].
  destruct (assoc "type" l); [discriminate | reflexivity].
Qed.

(** A [title] or [rich_text] payload decodes to the plain text of its first
    segment only: the segments after it are not read, whatever they are. *)
Theorem rich_text_decodes_first_segment self tag first rest text :
  tag = "title" \/ tag = "rich_text" ->
  prop_type self = JStr tag ->
  prop_value self = JArr (JObj first :: rest) ->
  forallb (has_key first) rich_text_fields = true ->
  assoc "plain_text" first = Some text ->
  get_value self = Ok text.
Proof.
  intros Htag Ht Hv Hfields Htext.
  destruct (rich_text_init_ok first Hfields) as (r & Hr & Hp).
  assert (text = plain_text r) by congruence. subst text.
  destruct Htag as [-> | ->];
    rewrite (get_value_dispatch self _ Ht) by (discriminate || (rewrite Hv; reflexivity));
    rewrite (dispatch_tag self _ _ Ht eq_refl).
  - unfold _get_title_value. rewrite Hv. simpl py_getitem_0. unfold bind at 1.
    rewrite Hr. reflexivity.
  - unfold _get_rich_text_value. rewrite Hv. simpl py_getitem_0. unfold bind at 1.
    rewrite Hr. reflexivity.
Qed.

Lemma rich_text_decodes_first_segment_witness :
  let seg := [ ("plain_text", JStr "Hello"); ("href", JNull);
               ("annotations", JObj []); ("type", JStr "text") ] in
  let self := {| prop_id := JStr "title"; prop_type := JStr "title";
                 prop_value := JArr [ JObj seg; JStr "not a segment" ] |} in
  get_value self = Ok (JStr "Hello").
Proof.
  intros seg self.
  apply (rich_text_decodes_first_segment self "title" seg [JStr "not a segment"]);
    [left; reflexivity | reflexivity | reflexivity | reflexivity | reflexivity].
Defined.

(** A [title] or [rich_text] payload whose first segment lacks one of the
    attributes "plain_text", "href", "annotations" and "type" does not
    decode, although only "plain_text" is returned. *)
Theorem rich_text_needs_all_attributes self tag first rest :
  tag = "title" \/ tag = "rich_text" ->
  prop_type self = JStr tag ->
  prop_value self = JArr (JObj first :: rest) ->
  forallb (has_key first) rich_text_fields = false ->
  get_value self = Err KeyError.
Proof.
  intros Htag Ht Hv Hfields.
  pose proof (rich_text_init_missing first Hfields) as Hr.
  destruct Htag as [-> | ->];
    rewrite (get_value_dispatch self _ Ht) by (discriminate || (rewrite Hv; reflexivity));
    rewrite (dispatch_tag self _ _ Ht eq_refl).
  - unfold _get_title_value. rewrite Hv. simpl py_getitem_0. unfold bind at 1.
    rewrite Hr. reflexivity.
  - unfold _get_rich_text_value. rewrite Hv. simpl py_getitem_0. unfold bind at 1.
    rewrite Hr. reflexivity.
Qed.

Lemma rich_text_needs_all_attributes_witness :
  let self := {| prop_id := JStr "t"; prop_type := JStr "rich_text";
                 prop_value := JArr [ JObj [ ("plain_text", JStr "Hello");
                                             ("type", JStr "text") ] ] |} in
  get_value self = Err KeyError.
Proof.
  intros self.
  apply (rich_text_needs_all_attributes self "rich_text"
           [("plain_text", JStr "Hello"); ("type", JStr "text")] []);
    [right; reflexivity | reflexivity | reflexivity | reflexivity].
Defined.

Lemma assoc_some_cons k l v : assoc k l = Some v -> exists x l', l = x :: l'.
Proof. destruct l as [|x l']; [discriminate | eauto]. Qed.

(** A [rollup] payload decodes to what its value holds under the key named
    by the value's own "type", returned as it is (not decoded again). *)
Theorem rollup_decodes_one_level self l t v :
  prop_type self = JStr "rollup" ->
  prop_value self = JObj l ->
  assoc "type" l = Some (JStr t) ->
  assoc t l = Some v ->
  get_value self = Ok v.
Proof.
  intros Ht Hv Htype Hval.
  destruct (assoc_some_cons _ _ _ Htype) as (x & l' & El).
  rewrite (get_value_dispatch self _ Ht) by (discriminate || (rewrite Hv, El; reflexivity)).
  rewrite (dispatch_tag self _ _ Ht eq_refl).
  unfold _get_rollup_value, py_getitem_str, py_getitem, dict_get. rewrite Hv, Htype.
  simpl. rewrite Hval. reflexivity.
Qed.

Lemma rollup_decodes_one_level_witness :
  let inner := JArr [ JObj [("type", JStr "number"); ("number", JNum 3)] ] in
  let self := {| prop_id := JStr "r"; prop_type := JStr "rollup";
                 prop_value := JObj [ ("type", JStr "array"); ("array", inner);
                                      ("function", JStr "show_original") ] |} in
  get_value self = Ok inner.
Proof.
  intros inner self.
  apply (rollup_decodes_one_level self
           [("type", JStr "array"); ("array", inner);
            ("function", JStr "show_original")] "array" inner);
    reflexivity.
Defined.

(** For the tags "phone_number", "url", "date" and "email" a non-empty
    value is returned as it is when it is a string, a list or a dict, and
    raises [TypeError] (from [len]) when it is a number or [True]. *)
Theorem string_tag_value_as_is self t :
  existsb (String.eqb t) string_tags = true ->
  prop_type self = JStr t ->
  py_truthy (prop_value self) = true ->
  get_value self
  = if has_items (prop_value self) then Ok (prop_value self) else Err TypeError.
Proof.
  intros Hin Ht Hv.
  assert (Hc : t <> "checkbox") by (intros ->; discriminate Hin).
  assert (Hn : t <> "number") by (intros ->; discriminate Hin).
  destruct (has_items (prop_value self)) eqn:Hitems.
  - rewrite (get_value_dispatch self t Ht Hc Hn Hitems).
    unfold dispatch. rewrite Ht.
    unfold string_tags in Hin. simpl in Hin.
    destruct (String.eqb t "phone_number") eqn:E1;
      [apply String.eqb_eq in E1; rewrite E1; reflexivity |].
    destruct (String.eqb t "url") eqn:E2;
      [apply String.eqb_eq in E2; rewrite E2; reflexivity |].
    destruct (String.eqb t "date") eqn:E3;
      [apply String.eqb_eq in E3; rewrite E3; reflexivity |].
    destruct (String.eqb t "email") eqn:E4;
      [apply String.eqb_eq in E4; rewrite E4; reflexivity | discriminate Hin].
  - unfold get_value, type_is. rewrite Ht, Hv.
    rewrite (proj2 (String.eqb_neq t "checkbox") Hc),
      (proj2 (String.eqb_neq t "number") Hn).
    destruct (prop_value self) as [| | |[|c s]|[|x l]|[|x l]];
      try discriminate Hitems; try discriminate Hv; reflexivity.
Qed.

Lemma string_tag_value_as_is_witness :
  let date := JObj [("start", JStr "2021-11-04"); ("end", JNull)] in
  let self := {| prop_id := JStr "d"; prop_type := JStr "date"; prop_value := date |} in
  get_value self = Ok date.
Proof.
  intros date self.
  exact (string_tag_value_as_is self "date" eq_refl eq_refl eq_refl).
Defined.

(** A [select] payload decodes to the "name" of its option, and a [files]
    payload to the "name" of its first file; further files are not read. *)
Theorem select_and_files_decode_to_name self l rest name :
  (prop_type self = JStr "select" /\ prop_value self = JObj l)
  \/ (prop_type self = JStr "files" /\ prop_value self = JArr (JObj l :: rest)) ->
  assoc "name" l = Some name ->
  get_value self = Ok name.
Proof.
  intros [[Ht Hv] | [Ht Hv]] Hname.
  - destruct (assoc_some_cons _ _ _ Hname) as (x & l' & El).
    rewrite (get_value_dispatch self _ Ht) by (discriminate || (rewrite Hv, El; reflexivity)).
    rewrite (dispatch_tag self _ _ Ht eq_refl).
    unfold _get_select_value, py_getitem_str, dict_get. rewrite Hv, Hname. reflexivity.
  - rewrite (get_value_dispatch self _ Ht) by (discriminate || (rewrite Hv; reflexivity)).
    rewrite (dispatch_tag self _ _ Ht eq_refl).
    unfold _get_files_value. rewrite Hv. simpl py_getitem_0. unfold bind.
    unfold py_getitem_str, dict_get. rewrite Hname. reflexivity.
Qed.

Lemma select_and_files_decode_to_name_witness :
  let self := {| prop_id := JStr "f"; prop_type := JStr "files";
                 prop_value := JArr [ JObj [("name", JStr "a.pdf")];
                                      JObj [("name", JStr "b.pdf")] ] |} in
  get_value self = Ok (JStr "a.pdf").
Proof.
  intros self.
  apply (select_and_files_decode_to_name self [("name", JStr "a.pdf")]
           [JObj [("name", JStr "b.pdf")]]);
    [right; split; reflexivity | reflexivity].
Defined.

(** ** Records *)

Lemma get_property_value_payload page props key fields id t v :
  properties page = JObj props ->
  assoc key props = Some (JObj fields) ->
  assoc "id" fields = Some id ->
  assoc "type" fields = Some (JStr t) ->
  assoc t fields = Some v ->
  get_property_value page key
  = get_value {| prop_id := id; prop_type := JStr t; prop_value := v |}.
Proof.
  intros Hp Hk Hid Ht Hv.
  unfold get_property_value, get_property, NotionPageProperty_init,
    py_getitem_str, py_getitem, dict_get.
  rewrite Hp, Hk. simpl. rewrite Hid. simpl. rewrite Ht. simpl. rewrite Hv.
  reflexivity.
Qed.

(** A checkbox property of a record decodes to its literal value, whatever
    it is: an unchecked box gives [False], not [None]. *)
Theorem checkbox_property_keeps_its_value page props key fields id v :
  properties page = JObj props ->
  assoc key props = Some (JObj fields) ->
  assoc "id" fields = Some id ->
  assoc "type" fields = Some (JStr "checkbox") ->
  assoc "checkbox" fields = Some v ->
  get_property_value page key = Ok v.
Proof.
  intros Hp Hk Hid Ht Hv.
  rewrite (get_property_value_payload page props key fields id "checkbox" v
             Hp Hk Hid Ht Hv).
  reflexivity.
Qed.

Lemma checkbox_property_keeps_its_value_witness :
  get_property_value
    (page_with [("Done", payload (JStr "c") "checkbox" (JBool false))]) "Done"
  = Ok (JBool false).
Proof.
  apply (checkbox_property_keeps_its_value _
           [("Done", payload (JStr "c") "checkbox" (JBool false))] "Done"
           [("id", JStr "c"); ("type", JStr "checkbox"); ("checkbox", JBool false)]
           (JStr "c"));
    reflexivity.
Defined.

(** Looking up a property raises [KeyError] when the record has no property
    of that name, and when the payload found lacks its "id", its "type", or
    the key that its "type" names. *)
Theorem get_property_value_missing_key page props key :
  properties page = JObj props ->
  assoc key props = None
  \/ (exists fields,
        assoc key props = Some (JObj fields)
        /\ (assoc "id" fields = None
            \/ assoc "type" fields = None
            \/ exists t, assoc "type" fields = Some (JStr t)
                         /\ assoc t fields = None)) ->
  get_property_value page key = Err KeyError.
Proof.
  intros Hp H.
  unfold get_property_value, get_property, NotionPageProperty_init,
    py_getitem_str, py_getitem, dict_get.
  rewrite Hp.
  destruct H as [-> | (fields & -> & H)]; [reflexivity |]. simpl.
  destruct H as [-> | H]; [reflexivity |].
  destruct (assoc "id" fields); [| reflexivity]. simpl.
  destruct H as [Ht | (t & Ht & Hv)]; rewrite Ht; simpl; [reflexivity |].
  rewrite Hv. reflexivity.
Qed.

Lemma get_property_value_missing_key_witness :
  get_property_value
    (page_with [("Name", JObj [("id", JStr "t"); ("type", JStr "title")])]) "Name"
  = Err KeyError.
Proof.
  apply (get_property_value_missing_key _
           [("Name", JObj [("id", JStr "t"); ("type", JStr "title")])] "Name");
    [reflexivity |].
  right. exists [("id", JStr "t"); ("type", JStr "title")].
  split; [reflexivity |]. right. right. exists "title". split; reflexivity.
Defined.

(** Wrapping a JSON object as a record succeeds exactly when the object has
    the ten attributes [NotionPage] reads, and fails with [KeyError]
    otherwise; the record then holds the object's "properties" and "id",
    and its property names are the keys of "properties" in their order. *)
Theorem NotionPage_init_needs_all_attributes l :
  is_ok (NotionPage_init (JObj l)) = forallb (has_key l) page_fields
  /\ (forallb (has_key l) page_fields = false ->
      NotionPage_init (JObj l) = Err KeyError)
  /\ (forall page, NotionPage_init (JObj l) = Ok page ->
        assoc "properties" l = Some (properties page)
        /\ assoc "id" l = Some (page_id page)
        /\ forall props, properties page = JObj props ->
             get_properties_keys page = Ok (map fst props)).
Proof.
  unfold page_fields, has_key, NotionPage_init, py_getitem_str, dict_get. simpl.
  destruct (assoc "object" l);
    [| split; [reflexivity | split; [reflexivity | discriminate]]].
  destruct (assoc "id" l);
    [| split; [reflexivity | split; [reflexivity | discriminate]]].
  destruct (assoc "created_time" l);
    [| split; [reflexivity | split; [reflexivity | discriminate]]].
  destruct (assoc "last_edited_time" l);
    [| split; [reflexivity | split; [reflexivity | discriminate]]].
  destruct (assoc "cover" l);
    [| split; [reflexivity | split; [reflexivity | discriminate]]].
  destruct (assoc "icon" l);
    [| split; [reflexivity | split; [reflexivity | discriminate]]].
  destruct (assoc "parent" l);
    [| split; [reflexivity | split; [reflexivity | discriminate]]].
  destruct (assoc "archived" l);
    [| split; [reflexivity | split; [reflexivity | discriminate]]].
  destruct (assoc "properties" l);
    [| split; [reflexivity | split; [reflexivity | discriminate]]].
  destruct (assoc "url" l);
    [| split; [reflexivity | split; [reflexivity | discriminate]]].
  simpl. split; [reflexivity |]. split; [discriminate |].
  intros page H. inversion H; subst page. simpl.
  split; [reflexivity |]. split; [reflexivity |].
  intros props ->. reflexivity.
Qed.

(** Anything that is not a JSON object cannot be wrapped as a record. *)
Lemma NotionPage_init_not_object j :
  (forall l, j <> JObj l) -> NotionPage_init j = Err TypeError.
Proof.
  intros H. destruct j as [| | | | |l]; try reflexivity.
  exfalso. exact (H l eq_refl).
Qed.

(** ** Identifiers, for any input *)

Lemma str_take_empty k : str_take k "" = "".
Proof. destruct k; reflexivity. Qed.

Lemma str_take_all k : forall s, (String.length s <= k)%nat -> str_take k s = s.
Proof.
  induction k as [|k IH]; intros [|c s] H; simpl in *; try reflexivity; try lia.
  rewrite IH by lia. reflexivity.
Qed.

Lemma str_drop_all k : forall s, (String.length s <= k)%nat -> str_drop k s = "".
Proof.
  induction k as [|k IH]; intros [|c s] H; simpl in *; try reflexivity; try lia.
  apply IH. lia.
Qed.

Lemma str_take_drop k : forall s, str_take k s +:+ str_drop k s = s.
Proof.
  induction k as [|k IH]; intros [|c s]; simpl; try reflexivity.
  rewrite IH. reflexivity.
Qed.

Lemma str_drop_add j : forall k s, str_drop (j + k) s = str_drop k (str_drop j s).
Proof.
  induction j as [|j IH]; intros k s; simpl.
  - reflexivity.
  - destruct s as [|c s]; [| apply IH].
    rewrite str_drop_all by (simpl; lia). destruct k; reflexivity.
Qed.

Lemma py_slice_seg s (a b : nat) :
  (a <= b)%nat ->
  py_slice s (Z.of_nat a) (Z.of_nat b) = str_take (b - a) (str_drop a s).
Proof.
  intros Hab. unfold py_slice, slice_bound.
  destruct (Z.ltb_spec (Z.of_nat a) 0); [lia |].
  destruct (Z.ltb_spec (Z.of_nat b) 0); [lia |].
  destruct (Nat.le_gt_cases (String.length s) a) as [Hge | Hlt].
  - rewrite (str_drop_all a s Hge).
    replace (Z.to_nat (Z.of_nat a `min` Z.of_nat (String.length s)))
      with (String.length s) by lia.
    rewrite (str_drop_all _ s (Nat.le_refl _)), !str_take_empty. reflexivity.
  - replace (Z.to_nat (Z.of_nat a `min` Z.of_nat (String.length s))) with a by lia.
    destruct (Nat.le_gt_cases b (String.length s)) as [Hb | Hb].
    + f_equal. lia.
    + rewrite !str_take_all by (rewrite str_drop_length; lia). reflexivity.
Qed.

Lemma py_slice_from_seg s (a : nat) : py_slice_from s (Z.of_nat a) = str_drop a s.
Proof.
  unfold py_slice_from.
  destruct (Nat.le_gt_cases a (String.length s)) as [Hle | Hgt].
  - rewrite (py_slice_seg s a (String.length s) Hle).
    apply str_take_all. rewrite str_drop_length. lia.
  - rewrite (str_drop_all a s) by lia.
    unfold py_slice, slice_bound.
    destruct (Z.ltb_spec (Z.of_nat a) 0); [lia |].
    destruct (Z.ltb_spec (Z.of_nat (String.length s)) 0); [lia |].
    replace (Z.to_nat _) with 0%nat by lia. reflexivity.
Qed.

(** The groups of [_format_page_id] for any string. *)
Lemma format_page_id_groups s :
  _format_page_id s
  = str_take 8 s +:+ "-" +:+ str_take 4 (str_drop 8 s) +:+ "-"
    +:+ str_take 4 (str_drop 12 s) +:+ "-" +:+ str_take 4 (str_drop 16 s) +:+ "-"
    +:+ str_drop 20 s.
Proof.
  unfold _format_page_id.
  rewrite (py_slice_seg s 0 8 ltac:(lia) : py_slice s 0 8 = _).
  rewrite (py_slice_seg s 8 12 ltac:(lia) : py_slice s 8 12 = _).
  rewrite (py_slice_seg s 12 16 ltac:(lia) : py_slice s 12 16 = _).
  rewrite (py_slice_seg s 16 20 ltac:(lia) : py_slice s 16 20 = _).
  rewrite (py_slice_from_seg s 20 : py_slice_from s 20 = _).
  rewrite str_drop_0. simpl Nat.sub. rewrite !app_assoc_str. reflexivity.
Qed.

Lemma groups_join s :
  s = str_take 8 s +:+ str_take 4 (str_drop 8 s) +:+ str_take 4 (str_drop 12 s)
      +:+ str_take 4 (str_drop 16 s) +:+ str_drop 20 s.
Proof.
  rewrite (str_drop_add 16 4 s : str_drop 20 s = _), str_take_drop.
  rewrite (str_drop_add 12 4 s : str_drop 16 s = _), str_take_drop.
  rewrite (str_drop_add 8 4 s : str_drop 12 s = _), str_take_drop.
  rewrite str_take_drop. reflexivity.
Qed.

(** Whatever string it is given (any length, dashes or not),
    [_format_page_id] raises nothing and checks nothing: it returns the
    first 8 characters, then the next 4, 4 and 4, then all the rest, with
    a dash after each of the first four groups; so it adds exactly four
    characters and keeps the characters of the input in their order. *)
Theorem format_page_id_any_input s :
  _format_page_id s
  = str_take 8 s +:+ "-" +:+ str_take 4 (str_drop 8 s) +:+ "-"
    +:+ str_take 4 (str_drop 12 s) +:+ "-" +:+ str_take 4 (str_drop 16 s) +:+ "-"
    +:+ str_drop 20 s
  /\ String.length (_format_page_id s) = (String.length s + 4)%nat
  /\ remove_dashes (_format_page_id s) = remove_dashes s.
Proof.
  split; [apply format_page_id_groups |]. split; [apply format_page_id_length |].
  rewrite format_page_id_groups. rewrite (groups_join s) at 6.
  rewrite !remove_dashes_app. reflexivity.
Qed.

(** An identifier of at most 8 characters comes back followed by four
    dashes. *)
Theorem format_page_id_short_input s :
  (String.length s <= 8)%nat -> _format_page_id s = s +:+ "----".
Proof.
  intros H. rewrite format_page_id_groups.
  rewrite (str_take_all 8 s H).
  rewrite (str_drop_all 8 s), (str_drop_all 12 s), (str_drop_all 16 s),
    (str_drop_all 20 s) by lia.
  rewrite !str_take_empty. reflexivity.
Qed.

Lemma format_page_id_short_input_witness :
  _format_page_id "abc" = "abc" +:+ "----".
Proof. apply format_page_id_short_input. simpl. lia. Defined.

Lemma find_from_absent sub : forall s i,
  (forall k, (k <= String.length s)%nat -> occurs_at sub s k = false) ->
  find_from sub s i = -1.
Proof.
  induction s as [|c s IH]; intros i H.
  - pose proof (H 0%nat ltac:(simpl; lia)) as H0. unfold occurs_at in H0.
    rewrite str_drop_0 in H0. rewrite find_from_eq, H0. reflexivity.
  - pose proof (H 0%nat ltac:(simpl; lia)) as H0. unfold occurs_at in H0.
    rewrite str_drop_0 in H0. rewrite find_from_eq, H0.
    apply IH. intros k Hk. exact (H (S k) ltac:(simpl; lia)).
Qed.

(** Without the marker "?v=" in the URL nothing is raised: [find] gives -1
    and the slice [http_url[-33:-1]] is returned, which for a URL of at
    least 33 characters is the 32 characters before its last one. *)
Theorem extract_dbid_without_marker pre mid c :
  String.length mid = 32%nat ->
  no_occurrence_before "?v=" (pre +:+ mid +:+ String c "")
    (S (String.length (pre +:+ mid +:+ String c ""))) = true ->
  _extract_dbid_from_http_url (pre +:+ mid +:+ String c "") = mid.
Proof.
  intros Hlen Hnone.
  set (http_url := pre +:+ mid +:+ String c "") in *.
  assert (Hfind : py_find http_url "?v=" = -1).
  { unfold py_find. apply find_from_absent. intros k Hk.
    apply (no_occurrence_before_spec _ _ _ Hnone). lia. }
  unfold _extract_dbid_from_http_url. rewrite Hfind.
  unfold py_slice, slice_bound.
  assert (Htotal : String.length http_url = (String.length pre + 33)%nat).
  { unfold http_url. rewrite !length_app_str, Hlen. simpl. lia. }
  rewrite Htotal.
  destruct (Z.ltb_spec (-1 - 32) 0); [| lia].
  destruct (Z.ltb_spec (-1) 0); [| lia].
  replace (Z.to_nat (0 `max` (-1 + _) - _)) with (String.length mid) by lia.
  replace (Z.to_nat _) with (String.length pre) by lia.
  unfold http_url. rewrite str_drop_app, str_take_app. reflexivity.
Qed.

Lemma extract_dbid_without_marker_witness :
  _extract_dbid_from_http_url
    ("https://www.notion.so/" +:+ "0123456789abcdef0123456789abcdef" +:+ String "/" "")
  = "0123456789abcdef0123456789abcdef".
Proof.
  apply extract_dbid_without_marker; reflexivity.
Defined.

(** When fewer than 32 characters come before the first "?v=" and the URL
    has at least 32 characters, the start of the slice is counted from the
    end of the URL and the extraction returns the empty string. *)
Theorem extract_dbid_marker_too_early pre suffix :
  (String.length pre < 32)%nat ->
  (32 <= String.length (pre +:+ "?v=" +:+ suffix))%nat ->
  no_occurrence_before "?v=" (pre +:+ "?v=" +:+ suffix) (String.length pre) = true ->
  _extract_dbid_from_http_url (pre +:+ "?v=" +:+ suffix) = "".
Proof.
  intros Hpre Hurl Hfirst.
  set (http_url := pre +:+ "?v=" +:+ suffix) in *.
  assert (Hfind : py_find http_url "?v=" = Z.of_nat (String.length pre)).
  { unfold py_find. rewrite (find_from_first "?v=" (String.length pre)).
    - lia.
    - apply no_occurrence_before_spec, Hfirst.
    - unfold occurs_at, http_url. rewrite str_drop_app. apply (prefix_app "?v="). }
  unfold _extract_dbid_from_http_url. rewrite Hfind.
  unfold py_slice, slice_bound.
  destruct (Z.ltb_spec (Z.of_nat (String.length pre) - 32) 0); [| lia].
  destruct (Z.ltb_spec (Z.of_nat (String.length pre)) 0); [lia |].
  replace (Z.to_nat (_ - _)) with 0%nat by lia.
  reflexivity.
Qed.

Lemma extract_dbid_marker_too_early_witness :
  _extract_dbid_from_http_url
    ("https://notion.so/db" +:+ "?v=" +:+ "fedcba9876543210fedcba9876543210")
  = "".
Proof.
  apply extract_dbid_marker_too_early; [simpl; lia | simpl; lia | reflexivity].
Defined.

(** ** The table and the query, end to end *)

Lemma fill_row_is_ok cell_store page x ks : forall df,
  is_ok (fill_row cell_store page x ks df)
  = forallb (property_decodes cell_store page) ks.
Proof.
  induction ks as [|key ks IH]; intros df; simpl; [reflexivity |].
  unfold property_decodes at 1.
  destruct (get_property_value page key) as [value|]; [| reflexivity].
  simpl. unfold df_at_set.
  destruct (cell_store value) as [stored|]; [| reflexivity].
  simpl. apply IH.
Qed.

Lemma fill_rows_is_ok cell_store pages : forall x df,
  is_ok (fill_rows cell_store x pages df) = forallb (page_decodes cell_store) pages.
Proof.
  induction pages as [|page pages IH]; intros x df; simpl; [reflexivity |].
  unfold page_decodes at 1.
  destruct (get_properties_keys page) as [ks|]; [| reflexivity].
  simpl. rewrite <- (fill_row_is_ok cell_store page x ks df).
  destruct (fill_row cell_store page x ks df) as [df1|]; [| reflexivity].
  simpl. apply IH.
Qed.

(** The table is returned exactly when the list has a record and every
    property of every record decodes (and the table takes its value); one
    property that does not decode, in any record, loses the whole table. *)
Theorem pages_to_dataframe_all_or_nothing (cell_store : json -> result json) pages :
  is_ok (pages_to_dataframe cell_store pages)
  = match pages with
    | [] => false
    | _ :: _ => forallb (page_decodes cell_store) pages
    end.
Proof.
  destruct pages as [|first rest]; [reflexivity |].
  unfold pages_to_dataframe.
  destruct (get_properties_keys first) as [ks|] eqn:Hk.
  - unfold bind at 1.
    exact (fill_rows_is_ok cell_store (first :: rest) 0 (DataFrame_new ks)).
  - simpl. unfold page_decodes. rewrite Hk. reflexivity.
Qed.

(** [query_db] wraps every fetched record as a [NotionPage] before it looks
    at [return_type]: if one record cannot be wrapped, the query raises
    that error for every [return_type], "json" included. *)
Theorem query_db_needs_pages
  (cell_store : json -> result json) self srv db query records srv' e return_type :
  query_fetch self srv (db_id db) query = Ok (JArr records, srv') ->
  mapM NotionPage_init records = Err e ->
  query_db cell_store self srv db query return_type = Err e.
Proof.
  intros Hfetch Hwrap. unfold query_db. fold (db_id db).
  rewrite Hfetch. simpl. rewrite Hwrap. reflexivity.
Qed.

Lemma query_db_needs_pages_witness :
  let self := {| NOTION_API_KEY := "secret_key" |} in
  let srv := {| pending := [ answered (response [JObj [("object", JStr "page")]]
                                         false JNull) ];
                sent := [] |} in
  query_db keep_value self srv "db" "" "json" = Err KeyError.
Proof.
  intros self srv.
  apply (query_db_needs_pages keep_value self srv "db" ""
           [JObj [("object", JStr "page")]]
           {| pending := []; sent := [first_request self "db" ""] |});
    reflexivity.
Defined.

Lemma mapM_length {A B : Type} (f : A -> result B) l : forall ys,
  mapM f l = Ok ys -> List.length ys = List.length l.
Proof.
  induction l as [|x l IH]; intros ys H; simpl in H.
  - inversion H. reflexivity.
  - destruct (f x) as [y|]; [| discriminate H]. simpl in H.
    destruct (mapM f l) as [ys'|]; [| discriminate H]. simpl in H.
    inversion H. simpl. rewrite (IH ys' eq_refl). reflexivity.
Qed.

(** Over any pages of the service, the three known values of
    [return_type] are three views of one fetch with the same requests:
    when the fetched records wrap to [notion_pages] (one page per record),
    "json" returns the records of all pages, "NotionPage" the wrapped
    pages and "dataframe" the table of those pages (or the error of the
    table). *)
Theorem query_db_return_types (cell_store : json -> result json) self db query
  (more : list (list json * json)) last last_cursor rest log notion_pages :
  let records := (concat (map fst more) ++ last)%list in
  let srv := {| pending := (map answered (map more_page more)
                            ++ answered (response last false last_cursor) :: rest)%list;
                sent := log |} in
  let srv' := {| pending := rest;
                 sent := (log ++ first_request self (db_id db) query
                              :: map (follow_up self (db_id db)) (map snd more))%list |} in
  mapM NotionPage_init records = Ok notion_pages ->
  List.length notion_pages = List.length records
  /\ query_db cell_store self srv db query "json" = Ok (RJson (JArr records), srv')
  /\ query_db cell_store self srv db query "NotionPage" = Ok (RPages notion_pages, srv')
  /\ query_db cell_store self srv db query "dataframe"
     = match pages_to_dataframe cell_store notion_pages with
       | Ok df => Ok (RDataFrame df, srv')
       | Err e => Err e
       end.
Proof.
  intros records srv srv' Hwrap.
  split; [exact (mapM_length _ _ _ Hwrap) |].
  unfold query_db, srv. fold (db_id db). rewrite query_fetch_pages.
  fold records. fold srv'. simpl bind. rewrite Hwrap. simpl.
  repeat split; reflexivity.
Qed.

Lemma query_db_return_types_witness :
  let self := {| NOTION_API_KEY := "secret_key" |} in
  let record name :=
    JObj [ ("object", JStr "page"); ("id", JStr name);
           ("created_time", JNull); ("last_edited_time", JNull);
           ("cover", JNull); ("icon", JNull); ("parent", JNull);
           ("archived", JBool false);
           ("properties", JObj [("Name", title_payload name)]);
           ("url", JNull) ] in
  let srv := {| pending := [ answered (response [record "a"] true (JStr "c1"));
                             answered (response [record "b"] false JNull) ];
                sent := [] |} in
  let srv' := {| pending := [];
                 sent := [ first_request self "db" "";
                           follow_up self "db" (JStr "c1") ] |} in
  query_db keep_value self srv "db" "" "json"
  = Ok (RJson (JArr [record "a"; record "b"]), srv')
  /\ (exists pa pb,
        query_db keep_value self srv "db" "" "NotionPage" = Ok (RPages [pa; pb], srv')
        /\ page_id pa = JStr "a" /\ page_id pb = JStr "b")
  /\ (exists df,
        query_db keep_value self srv "db" "" "dataframe" = Ok (RDataFrame df, srv')
        /\ df_columns df = ["Name"]
        /\ df_index df = [0; 1]%nat
        /\ df_cells df !! (0%nat, "Name") = Some (JStr "a")
        /\ df_cells df !! (1%nat, "Name") = Some (JStr "b")).
Proof.
  intros self record srv srv'.
  destruct (query_db_return_types keep_value self "db" ""
              [([record "a"], JStr "c1")] [record "b"] JNull [] []
              _ eq_refl)
    as (_ & Hjson & Hpages & Hdf).
  split; [exact Hjson |]. split.
  - eexists. eexists. split; [exact Hpages |]. split; reflexivity.
  - eexists. split; [exact Hdf |]. repeat split; reflexivity.
Defined.

(** A database without rows: the query returns the empty list as "json"
    and as "NotionPage", but as "dataframe" (the default) it raises
    [IndexError], because the table is built from the first record. *)
Theorem query_db_empty_database
  (cell_store : json -> result json) self db query
  (more : list (list json * json)) last last_cursor rest log :
  (concat (map fst more) ++ last)%list = [] ->
  let srv := {| pending := (map answered (map more_page more)
                            ++ answered (response last false last_cursor) :: rest)%list;
                sent := log |} in
  query_db cell_store self srv db query "dataframe" = Err IndexError
  /\ (exists srv', query_db cell_store self srv db query "json"
                   = Ok (RJson (JArr []), srv'))
  /\ (exists srv', query_db cell_store self srv db query "NotionPage"
                   = Ok (RPages [], srv')).
Proof.
  intros Hempty srv. unfold query_db. fold (db_id db). unfold srv.
  rewrite query_fetch_pages, Hempty. simpl.
  split; [reflexivity |]. split; eexists; reflexivity.
Qed.

Lemma query_db_empty_database_witness :
  let self := {| NOTION_API_KEY := "secret_key" |} in
  let srv := {| pending := [ answered (response [] false JNull) ]; sent := [] |} in
  query_db keep_value self srv "db" "" "dataframe" = Err IndexError.
Proof.
  intros self srv.
  exact (proj1 (query_db_empty_database keep_value self "db" "" [] [] JNull [] []
                  eq_refl)).
Defined.

(** The loop through pages that all announce a further page. *)
Lemma query_loop_through self db (more : list (list json * json)) :
  forall results cursor acc tail log,
  exists results' cursor' acc' log',
    query_loop self db (response results true cursor) (JArr acc)
      (map answered (map more_page more) ++ tail)%list log
    = query_loop self db (response results' true cursor') (JArr acc') tail log'.
Proof.
  induction more as [|[res cur] more IH]; intros results cursor acc tail log.
  - exists results, cursor, acc, log. reflexivity.
  - simpl map. simpl app. rewrite query_loop_more.
    unfold more_page at 1. simpl bind. unfold more_page at 1. simpl fst. simpl snd.
    apply IH.
Qed.

(** The fetch returns nothing of what it has fetched when, after any
    number of pages that announce a further one, the next response has a
    status 400 to 599 (it raises [SystemExit]) or no response arrives (it
    raises [UnboundLocalError], from the log line of the handler in
    [post_request], and not [SystemExit]). *)
Theorem query_fetch_no_partial_result self db query
  (more : list (list json * json)) refused rest log :
  http_error (status_code refused) = true ->
  query_fetch self
    {| pending := (map answered (map more_page more) ++ refused :: rest)%list;
       sent := log |} db query
  = Err SystemExit
  /\ query_fetch self
       {| pending := map answered (map more_page more); sent := log |} db query
     = Err UnboundLocalError.
Proof.
  intros Hrefused. unfold query_fetch, post_request. simpl pending. simpl sent.
  destruct more as [|[res cur] more].
  - simpl. rewrite Hrefused. split; reflexivity.
  - simpl map. unfold more_page at 1 3. simpl bind. split.
    + destruct (query_loop_through self db more res cur res (refused :: rest)
                  (log ++ [{| req_url := query_url db;
                              req_headers := _build_headers self;
                              req_data := Some query; req_json := None |}])%list)
        as (results' & cursor' & acc' & log' & ->).
      simpl. rewrite Hrefused. reflexivity.
    + pose proof (query_loop_through self db more res cur res []
                  (log ++ [{| req_url := query_url db;
                              req_headers := _build_headers self;
                              req_data := Some query; req_json := None |}])%list)
        as (results' & cursor' & acc' & log' & H).
      rewrite app_nil_r in H. rewrite H. reflexivity.
Qed.

Lemma query_fetch_no_partial_result_witness :
  let self := {| NOTION_API_KEY := "secret_key" |} in
  let first := answered (response [JObj []] true (JStr "c1")) in
  query_fetch self
    {| pending := [ first; {| status_code := 502; content := JNull |} ];
       sent := [] |} "db" ""
  = Err SystemExit
  /\ query_fetch self {| pending := [ first ]; sent := [] |} "db" ""
     = Err UnboundLocalError.
Proof.
  intros self first.
  exact (query_fetch_no_partial_result self "db" "" [([JObj []], JStr "c1")]
           {| status_code := 502; content := JNull |} [] [] eq_refl).
Defined.

(** ** The GET side *)

Lemma pages_url x :
  (_get_base_url +:+ "pages") +:+ "/" +:+ x = "https://api.notion.com/v1/pages/" +:+ x.
Proof. reflexivity. Qed.

Lemma databases_url x :
  (_get_base_url +:+ "databases") +:+ "/" +:+ x
  = "https://api.notion.com/v1/databases/" +:+ x.
Proof. reflexivity. Qed.

Lemma get_request_reply url headers r later log :
  get_request url headers {| replies := r :: later; requested := log |}
  = (if http_error (status_code r) then Err SystemExit else Ok r,
     {| replies := later; requested := (log ++ [(url, headers)])%list |}).
Proof.
  unfold get_request. simpl. destruct (http_error (status_code r)); reflexivity.
Qed.

Lemma get_request_logs url headers net :
  requested (snd (get_request url headers net))
  = (requested net ++ [(url, headers)])%list.
Proof.
  unfold get_request. destruct (replies net) as [|r later]; [reflexivity |].
  simpl. destruct (http_error (status_code r)); reflexivity.
Qed.

(** A key that is missing, empty or does not start with "secret" makes the
    constructor raise [SystemExit] before any request is sent. *)
Theorem NotionAPI_init_rejects_key notion_api_key net :
  valid_key notion_api_key = false ->
  NotionAPI_init notion_api_key net = (Err SystemExit, net).
Proof.
  unfold valid_key, NotionAPI_init. destruct notion_api_key as [key|]; [| reflexivity].
  intros H. destruct (String.eqb key ""); [reflexivity |].
  rewrite H. reflexivity.
Qed.

Lemma NotionAPI_init_rejects_key_witness :
  NotionAPI_init (Some "ntn_12345") {| replies := []; requested := [] |}
  = (Err SystemExit, {| replies := []; requested := [] |}).
Proof. apply NotionAPI_init_rejects_key. reflexivity. Defined.

(** With a key that starts with "secret" the constructor sends exactly one
    GET, to the users endpoint with the version header and the key as
    bearer token; it returns the handler unless the status of the response
    is 400 to 599, in which case it raises [SystemExit]. *)
Theorem NotionAPI_init_checks_connection key r later log :
  valid_key (Some key) = true ->
  NotionAPI_init (Some key) {| replies := r :: later; requested := log |}
  = (if http_error (status_code r) then Err SystemExit
     else Ok {| NOTION_API_KEY := key |},
     {| replies := later;
        requested := (log ++ [ ("https://api.notion.com/v1/users",
                                [ ("Notion-Version", "2021-08-16");
                                  ("Authorization", "Bearer " +:+ key) ]) ])%list |}).
Proof.
  unfold valid_key, NotionAPI_init. intros H. rewrite H.
  assert (Hne : String.eqb key "" = false).
  { destruct key; [discriminate H | reflexivity]. }
  rewrite Hne. cbn [negb]. unfold api_bind, _check_connection. cbv beta iota.
  rewrite get_request_reply.
  destruct (http_error (status_code r)); reflexivity.
Qed.

Lemma NotionAPI_init_checks_connection_witness :
  fst (NotionAPI_init (Some "secret_abc")
         {| replies := [ {| status_code := 401; content := JNull |} ];
            requested := [] |})
  = Err SystemExit.
Proof.
  rewrite (NotionAPI_init_checks_connection "secret_abc"
             {| status_code := 401; content := JNull |} [] [] eq_refl).
  reflexivity.
Defined.

(** [get_page] asks for the page under the formatted identifier and sorts
    the response by its status: 400 to 599 raises [SystemExit], any other
    status than 200 raises [ValueError], and 200 gives the record wrapped
    from the content (or the error of the wrapping). *)
Theorem get_page_by_status self page_id r later log :
  get_page self page_id {| replies := r :: later; requested := log |}
  = (if http_error (status_code r) then Err SystemExit
     else if status_code r =? 200 then NotionPage_init (content r)
     else Err ValueError,
     {| replies := later;
        requested := (log ++ [ ("https://api.notion.com/v1/pages/"
                                +:+ _format_page_id page_id,
                                _build_headers self) ])%list |}).
Proof.
  unfold get_page, api_bind. cbv beta zeta. rewrite get_request_reply, pages_url.
  destruct (http_error (status_code r)); [reflexivity |].
  destruct (status_code r =? 200); reflexivity.
Qed.

(** [get_page] and [get_db] format the identifier they are given without
    looking at it: given an identifier that is already formatted, they
    request an identifier of 40 characters, which is not canonical. *)
Theorem formatted_id_is_formatted_again self raw net :
  String.length raw = 32%nat ->
  let id := _format_page_id (_format_page_id raw) in
  String.length id = 40%nat
  /\ is_canonical_id id = false
  /\ requested (snd (get_page self (_format_page_id raw) net))
     = (requested net
        ++ [ ("https://api.notion.com/v1/pages/" +:+ id, _build_headers self) ])%list
  /\ requested (snd (get_db self (_format_page_id raw) net))
     = (requested net
        ++ [ ("https://api.notion.com/v1/databases/" +:+ id, _build_headers self) ])%list.
Proof.
  intros Hlen id.
  assert (H40 : String.length id = 40%nat).
  { unfold id. rewrite !format_page_id_length, Hlen. reflexivity. }
  split; [exact H40 |]. split.
  { unfold is_canonical_id. rewrite H40. reflexivity. }
  split.
  - unfold get_page, api_bind. cbv beta zeta. fold id. rewrite pages_url.
    rewrite <- (get_request_logs ("https://api.notion.com/v1/pages/" +:+ id)
                  (_build_headers self) net).
    destruct (get_request _ _ net) as [[response|e] net']; [| reflexivity].
    destruct (negb (status_code response =? 200)); reflexivity.
  - unfold get_db. cbv beta zeta. fold id. rewrite databases_url. apply get_request_logs.
Qed.

Lemma formatted_id_is_formatted_again_witness :
  is_canonical_id
    (_format_page_id (_format_page_id "0123456789abcdef0123456789abcdef")) = false.
Proof.
  exact (proj1 (proj2 (formatted_id_is_formatted_again
                         {| NOTION_API_KEY := "secret_key" |}
                         "0123456789abcdef0123456789abcdef"
                         {| replies := []; requested := [] |} eq_refl))).
Defined.

Lemma get_db_reply self db_id r later log :
  http_error (status_code r) = false ->
  get_db self db_id {| replies := r :: later; requested := log |}
  = (Ok r,
     {| replies := later;
        requested := (log ++ [ ("https://api.notion.com/v1/databases/"
                                +:+ _format_page_id db_id,
                                _build_headers self) ])%list |}).
Proof.
  intros H. unfold get_db. cbv beta zeta. rewrite get_request_reply, databases_url, H.
  reflexivity.
Qed.

Lemma first_title_skips before : forall contents after,
  forallb not_title before = true ->
  first_title (before ++ contents :: after)%list = first_title (contents :: after).
Proof.
  induction before as [|[k c] before IH]; intros contents after H; [reflexivity |].
  simpl in H. apply andb_prop in H as [Hc Hb]. unfold not_title in Hc. simpl in Hc.
  destruct (field "type" c) as [t|] eqn:Ht; [| discriminate Hc].
  simpl app. simpl first_title. rewrite (getitem_field c "type" t Ht). simpl bind.
  apply negb_true_iff in Hc. rewrite Hc. apply IH, Hb.
Qed.

(** The primary key of a database is the "name" attribute of the first of
    its properties, in the order of the response, whose "type" is "title";
    the properties before it only need a "type". *)
Theorem get_db_primary_key_first_title
  self db r later log l before key contents after name :
  http_error (status_code r) = false ->
  content r = JObj l ->
  assoc "properties" l = Some (JObj (before ++ (key, contents) :: after)%list) ->
  forallb not_title before = true ->
  field "type" contents = Some (JStr "title") ->
  field "name" contents = Some name ->
  fst (get_db_primary_key self db {| replies := r :: later; requested := log |})
  = Ok name.
Proof.
  intros Hs Hc Hp Hbefore Ht Hn.
  unfold get_db_primary_key, api_bind. cbv beta zeta. rewrite (get_db_reply self _ r later log Hs).
  unfold api_lift. simpl fst. rewrite Hc.
  unfold py_getitem_str at 1. unfold dict_get. rewrite Hp. simpl bind.
  rewrite (first_title_skips before (key, contents) after Hbefore).
  simpl first_title. rewrite (getitem_field contents "type" _ Ht). simpl bind.
  simpl py_eq_str. cbv iota. apply getitem_field, Hn.
Qed.

Lemma get_db_primary_key_first_title_witness :
  let props := [ ("Tags", JObj [("type", JStr "multi_select"); ("name", JStr "Tags")]);
                 ("Name", JObj [("type", JStr "title"); ("name", JStr "Name")]) ] in
  let r := {| status_code := 200;
              content := JObj [("object", JStr "database"); ("properties", JObj props)] |} in
  fst (get_db_primary_key {| NOTION_API_KEY := "secret_key" |} "db"
         {| replies := [r]; requested := [] |})
  = Ok (JStr "Name").
Proof.
  intros props r.
  apply (get_db_primary_key_first_title _ "db" r [] []
           [("object", JStr "database"); ("properties", JObj props)]
           [("Tags", JObj [("type", JStr "multi_select"); ("name", JStr "Tags")])]
           "Name" (JObj [("type", JStr "title"); ("name", JStr "Name")]) []);
    reflexivity.
Defined.

Lemma first_title_none props :
  forallb not_title props = true -> first_title props = Ok JNull.
Proof.
  induction props as [|[k c] props IH]; intros H; [reflexivity |].
  simpl in H. apply andb_prop in H as [Hc Hb]. unfold not_title in Hc. simpl in Hc.
  destruct (field "type" c) as [t|] eqn:Ht; [| discriminate Hc].
  simpl first_title. rewrite (getitem_field c "type" t Ht). simpl bind.
  apply negb_true_iff in Hc. rewrite Hc. apply IH, Hb.
Qed.

(** For a database none of whose properties has the type "title",
    [get_db_primary_key] raises nothing and returns [None]. *)
Theorem get_db_primary_key_without_title self db r later log l props :
  http_error (status_code r) = false ->
  content r = JObj l ->
  assoc "properties" l = Some (JObj props) ->
  forallb not_title props = true ->
  fst (get_db_primary_key self db {| replies := r :: later; requested := log |})
  = Ok JNull.
Proof.
  intros Hs Hc Hp Hnone.
  unfold get_db_primary_key, api_bind. cbv beta zeta. rewrite (get_db_reply self _ r later log Hs).
  unfold api_lift. simpl fst. rewrite Hc.
  unfold py_getitem_str at 1. unfold dict_get. rewrite Hp. simpl bind.
  apply first_title_none, Hnone.
Qed.

Lemma get_db_primary_key_without_title_witness :
  let props := [ ("Tags", JObj [("type", JStr "multi_select"); ("name", JStr "Tags")]) ] in
  let r := {| status_code := 200; content := JObj [("properties", JObj props)] |} in
  fst (get_db_primary_key {| NOTION_API_KEY := "secret_key" |} "db"
         {| replies := [r]; requested := [] |})
  = Ok JNull.
Proof.
  intros props r.
  apply (get_db_primary_key_without_title _ "db" r [] []
           [("properties", JObj props)] props);
    reflexivity.
Defined.

(** The title of a database is the plain text of the first segment of its
    "title"; a database whose "title" is the empty list (an untitled
    database) makes [get_db_title] raise [IndexError].  The database is
    asked for under the formatted identifier, taken out of the URL first
    when [db] is one. *)
Theorem get_db_title_first_segment self db r later log l title :
  http_error (status_code r) = false ->
  content r = JObj l ->
  assoc "title" l = Some (JArr title) ->
  get_db_title self db {| replies := r :: later; requested := log |}
  = (match title with
     | [] => Err IndexError
     | first :: _ => py_getitem_str first "plain_text"
     end,
     {| replies := later;
        requested := (log ++ [ ("https://api.notion.com/v1/databases/"
                                +:+ _format_page_id (db_id db),
                                _build_headers self) ])%list |}).
Proof.
  intros Hs Hc Ht.
  unfold get_db_title, api_bind. cbv beta zeta. fold (db_id db).
  rewrite (get_db_reply self _ r later log Hs).
  unfold api_lift. rewrite Hc.
  unfold py_getitem_str at 1. unfold dict_get. rewrite Ht. simpl bind.
  destruct title; reflexivity.
Qed.

Lemma get_db_title_first_segment_witness :
  let r := {| status_code := 200; content := JObj [("title", JArr [])] |} in
  fst (get_db_title {| NOTION_API_KEY := "secret_key" |} "db"
         {| replies := [r]; requested := [] |})
  = Err IndexError.
Proof.
  intros r.
  rewrite (get_db_title_first_segment _ "db" r [] [] [("title", JArr [])] []);
    reflexivity.
Defined.

Lemma number_nonzero_decodes_to_itself_witness :
  get_value {| prop_id := JStr "n"; prop_type := JStr "number"; prop_value := JNum (-3) |}
  = Ok (JNum (-3)).
Proof.
  apply number_nonzero_decodes_to_itself; [reflexivity | reflexivity | lia].
Defined.

Lemma NotionPage_init_needs_all_attributes_witness :
  let l := [ ("object", JStr "page"); ("id", JStr "p");
             ("created_time", JNull); ("last_edited_time", JNull);
             ("cover", JNull); ("icon", JNull); ("parent", JNull);
             ("archived", JBool false) ] in
  NotionPage_init (JObj l) = Err KeyError.
Proof.
  intros l.
  exact (proj1 (proj2 (NotionPage_init_needs_all_attributes l)) eq_refl).
Defined.
